(** * MemoryInterfaces: host buffers, device planes and pixel-format surfaces

    A shallow embedding of [PyNvCodec/TC/src/MemoryInterfaces.cpp].

    The C++ objects are records, a method that mutates [this] returns the
    new object, and everything the CUDA runtime and the two allocation
    registers hold lives in an explicit [World] that is threaded through
    every call.  A C++ exception is a [Throw] result; the world that comes
    with it is the world at the point of the [throw].  A step whose
    behaviour the language leaves undefined, such as a copy from or to
    memory the process may not access, is a [Fault] result. *)

From Stdlib Require Import ZArith List Bool Lia.
Import ListNotations.
Open Scope Z_scope.

(** ** Machine integers and pointers *)

(** [uint32_t] and [uint64_t] arithmetic wraps around. *)
Definition wrap32 (z : Z) : Z := z mod 2 ^ 32.
Definition wrap64 (z : Z) : Z := z mod 2 ^ 64.

(** [void *] and [CUdeviceptr] are addresses; [nullptr] is address 0. *)
Definition nullptr : Z := 0.

(** ** Exceptions *)

Inductive exn : Type :=
| bad_alloc
| invalid_argument.

Inductive result (A : Type) : Type :=
| Ok (a : A)
| Throw (e : exn)
| Fault.

Arguments Ok {A} a.
Arguments Throw {A} e.
Arguments Fault {A}.

(** ** The allocation register ([struct AllocInfo], [struct AllocRegister]) *)

Record AllocInfo : Type := mkAllocInfo {
  note_id : Z;     (* AllocInfo::id *)
  note_size : Z    (* AllocInfo::size *)
}.

(** [AllocInfo::operator==] compares the identity only. *)
Definition AllocInfo_eqb (a other : AllocInfo) : bool :=
  note_id a =? note_id other.

Record AllocRegister : Type := mkAllocRegister {
  instances : list AllocInfo;
  ID : Z
}.

Definition AllocRegister_init : AllocRegister :=
  {| instances := []; ID := 0 |}.

(** [auto id = ID++; instances.push_back(AllocInfo(id, size)); return id;] *)
Definition AddNote (reg : AllocRegister) (size : Z) : Z * AllocRegister :=
  let id := ID reg in
  (id, {| instances := instances reg ++ [mkAllocInfo id size];
          ID := wrap64 (ID reg + 1) |}).

(** [instances.erase(remove(begin, end, allocInfo), end)] *)
Definition DeleteNote (reg : AllocRegister) (allocInfo : AllocInfo)
  : AllocRegister :=
  {| instances :=
       filter (fun n => negb (AllocInfo_eqb n allocInfo)) (instances reg);
     ID := ID reg |}.

Definition GetSize (reg : AllocRegister) : Z :=
  Z.of_nat (length (instances reg)).

(** ** The world: CUDA runtime and global registers *)

(** One answer of [cuMemAllocPitch]: on success the driver writes the
    device pointer and the pitch; on failure it writes neither, and the
    local [newPitch] that [SurfacePlane::Allocate] reads afterwards holds
    whatever the stack held ([stack_garbage]). *)
Inductive AllocPitchAnswer : Type :=
| AllocPitchOk (dptr : Z) (newPitch : Z)
| AllocPitchFail (stack_garbage : Z).

Record World : Type := mkWorld {
  BuffersRegister : AllocRegister;
  HWSurfaceRegister : AllocRegister;
  (* pinned host regions handed out by cudaMallocHost and not yet freed *)
  host_live : list Z;
  (* content of host memory, one byte per address *)
  host_mem : Z -> Z;
  (* device regions handed out by cuMemAllocPitch and not yet freed *)
  dev_live : list Z;
  (* what the next calls of cudaMallocHost will answer; [None] is failure,
     and so is every call once the list is used up *)
  host_driver : list (option Z);
  (* what the next calls of cuMemAllocPitch will answer; every call fails
     once the list is used up *)
  dev_driver : list AllocPitchAnswer;
  (* the regions of host memory the process may read and write, each with
     its first address and its number of bytes: the pinned regions that are
     live, with the size they were asked with, and the memory of the
     callers *)
  host_valid : list (Z * Z);
  (* the calls made to cuMemAllocPitch so far, each with the width in bytes
     and the number of rows it asked for *)
  dev_requests : list (Z * Z)
}.

Definition set_BuffersRegister (w : World) (r : AllocRegister) : World :=
  mkWorld r (HWSurfaceRegister w) (host_live w) (host_mem w) (dev_live w)
          (host_driver w) (dev_driver w) (host_valid w) (dev_requests w).

Definition set_HWSurfaceRegister (w : World) (r : AllocRegister) : World :=
  mkWorld (BuffersRegister w) r (host_live w) (host_mem w) (dev_live w)
          (host_driver w) (dev_driver w) (host_valid w) (dev_requests w).

Definition set_host (w : World) (live : list Z) (drv : list (option Z))
  : World :=
  mkWorld (BuffersRegister w) (HWSurfaceRegister w) live (host_mem w)
          (dev_live w) drv (dev_driver w) (host_valid w) (dev_requests w).

Definition set_host_mem (w : World) (m : Z -> Z) : World :=
  mkWorld (BuffersRegister w) (HWSurfaceRegister w) (host_live w) m
          (dev_live w) (host_driver w) (dev_driver w) (host_valid w)
          (dev_requests w).

Definition set_dev (w : World) (live : list Z) (drv : list AllocPitchAnswer)
  : World :=
  mkWorld (BuffersRegister w) (HWSurfaceRegister w) (host_live w)
          (host_mem w) live (host_driver w) drv (host_valid w)
          (dev_requests w).

Definition set_host_valid (w : World) (valid : list (Z * Z)) : World :=
  mkWorld (BuffersRegister w) (HWSurfaceRegister w) (host_live w)
          (host_mem w) (dev_live w) (host_driver w) (dev_driver w) valid
          (dev_requests w).

Definition set_dev_requests (w : World) (requests : list (Z * Z)) : World :=
  mkWorld (BuffersRegister w) (HWSurfaceRegister w) (host_live w)
          (host_mem w) (dev_live w) (host_driver w) (dev_driver w)
          (host_valid w) requests.

Fixpoint remove_first (p : Z) (l : list Z) : list Z :=
  match l with
  | [] => []
  | q :: l' => if q =? p then l' else q :: remove_first p l'
  end.

(** The first region that starts at [p] is taken out. *)
Fixpoint remove_region (p : Z) (l : list (Z * Z)) : list (Z * Z) :=
  match l with
  | [] => []
  | r :: l' => if fst r =? p then l' else r :: remove_region p l'
  end.

(** [cudaMallocHost(&ptr, size)]: returns the value of [ptr] after the call.
    A failing call leaves [ptr] as it was; a successful one makes a region
    of [size] bytes accessible at the pointer it gives. *)
Definition cudaMallocHost (ptr : Z) (size : Z) (w : World) : Z * World :=
  match host_driver w with
  | Some p :: rest =>
      (p, set_host_valid (set_host w (p :: host_live w) rest)
                         ((p, size) :: host_valid w))
  | None :: rest => (ptr, set_host w (host_live w) rest)
  | [] => (ptr, w)
  end.

(** [cudaFreeHost(ptr)]; freeing a pointer that is not live frees nothing.
    The region of a live pointer is no longer accessible afterwards. *)
Definition cudaFreeHost (ptr : Z) (w : World) : World :=
  set_host_valid
    (set_host w (remove_first ptr (host_live w)) (host_driver w))
    (if existsb (Z.eqb ptr) (host_live w)
     then remove_region ptr (host_valid w)
     else host_valid w).

(** The [n] bytes from address [a] lie inside the region [r]. *)
Definition in_region (a n : Z) (r : Z * Z) : bool :=
  (fst r <=? a) && (a + n <=? fst r + snd r).

(** The [n] bytes from address [a] may be read and written: they lie inside
    one accessible region.  Nothing is accessible at the null address. *)
Definition accessible (w : World) (a n : Z) : bool :=
  (0 <? a) && existsb (in_region a n) (host_valid w).

(** Two ranges of [n] bytes do not overlap. *)
Definition disjoint (dst src n : Z) : bool :=
  (dst + n <=? src) || (src + n <=? dst).

(** [memcpy(dst, src, n)].  The copy is defined when both ranges are
    accessible and do not overlap; otherwise (a null or freed destination or
    source, a range that leaves its region, an overlap) the behaviour is
    undefined.  A copy of no bytes does nothing. *)
Definition memcpy (dst src n : Z) (w : World) : result unit * World :=
  if n =? 0 then (Ok tt, w)
  else if accessible w dst n && accessible w src n && disjoint dst src n
  then (Ok tt,
        set_host_mem w
          (fun a => if (dst <=? a) && (a <? dst + n)
                    then host_mem w (src + (a - dst))
                    else host_mem w a))
  else (Fault, w).

(** [cuMemAllocPitch(&dptr, &newPitch, widthInBytes, height, 16)]: returns
    the values of [dptr] and [newPitch] after the call, and records what
    was asked for.  The [CudaCtxPush] around it makes the context current
    and restores it; it has no effect on what is modelled here. *)
Definition cuMemAllocPitch (dptr : Z) (widthInBytes height : Z) (w : World)
  : Z * Z * World :=
  let w := set_dev_requests w (dev_requests w ++ [(widthInBytes, height)]) in
  match dev_driver w with
  | AllocPitchOk p newPitch :: rest =>
      (p, newPitch, set_dev w (p :: dev_live w) rest)
  | AllocPitchFail garbage :: rest =>
      (dptr, garbage, set_dev w (dev_live w) rest)
  | [] => (dptr, 0, w)
  end.

(** [cuMemFree(dptr)] *)
Definition cuMemFree (dptr : Z) (w : World) : World :=
  set_dev w (remove_first dptr (dev_live w)) (dev_driver w).

(** ** Objects *)

Record Buffer : Type := mkBuffer {
  mem_size : Z;
  own_memory : bool;
  pRawData : Z;
  buffer_id : Z          (* Buffer::id, under TRACK_TOKEN_ALLOCATIONS *)
}.

Definition Buffer_set_pRawData (b : Buffer) (p : Z) : Buffer :=
  mkBuffer (mem_size b) (own_memory b) p (buffer_id b).

Definition Buffer_set_mem_size (b : Buffer) (n : Z) : Buffer :=
  mkBuffer n (own_memory b) (pRawData b) (buffer_id b).

Definition Buffer_set_id (b : Buffer) (i : Z) : Buffer :=
  mkBuffer (mem_size b) (own_memory b) (pRawData b) i.

Record SurfacePlane : Type := mkSurfacePlane {
  ownMem : bool;
  gpuMem : Z;
  width : Z;
  height : Z;
  pitch : Z;
  elemSize : Z;
  ctx : Z;
  plane_id : Z           (* SurfacePlane::id, under TRACK_TOKEN_ALLOCATIONS *)
}.

(** Modelled from the spec: the default member initialisers of
    [SurfacePlane] and of [Buffer] are in MemoryInterfaces.hpp, which is not
    part of the sources.  An unallocated buffer has a null raw pointer and a
    default plane is an empty view (null device pointer, no ownership). *)
Definition SurfacePlane_default : SurfacePlane :=
  mkSurfacePlane false nullptr 0 0 0 0 nullptr 0.

Definition Buffer_pRawData_default : Z := nullptr.

(** Modelled from the spec: the inline accessors of [SurfacePlane] are in
    MemoryInterfaces.hpp; they return the stored geometry, and
    [GetHostMemSize] is pitch times height. *)
Definition OwnMemory (p : SurfacePlane) : bool := ownMem p.
Definition GpuMem (p : SurfacePlane) : Z := gpuMem p.
Definition Plane_Width (p : SurfacePlane) : Z := width p.
Definition Plane_Height (p : SurfacePlane) : Z := height p.
Definition Plane_Pitch (p : SurfacePlane) : Z := pitch p.
Definition Plane_ElemSize (p : SurfacePlane) : Z := elemSize p.
Definition GetHostMemSize (p : SurfacePlane) : Z :=
  wrap32 (pitch p * height p).

(** ** Computations: a state monad over [World] with exceptions *)

Definition M (A : Type) : Type := World -> result A * World.

Definition ret {A : Type} (a : A) : M A := fun w => (Ok a, w).

Definition throw {A : Type} (e : exn) : M A := fun w => (Throw e, w).

Definition bind {A B : Type} (m : M A) (k : A -> M B) : M B :=
  fun w =>
    match m w with
    | (Ok a, w') => k a w'
    | (Throw e, w') => (Throw e, w')
    | (Fault, w') => (Fault, w')
    end.

(** A runtime call that only changes the world. *)
Definition call (f : World -> World) : M unit := fun w => (Ok tt, f w).

Declare Scope cpp_scope.
Delimit Scope cpp_scope with cpp.
Notation "x <- m ;; k" := (bind m (fun x => k))
  (at level 61, m at next level, right associativity) : cpp_scope.
Notation "m ;;; k" := (bind m (fun _ => k))
  (at level 61, right associativity) : cpp_scope.
Open Scope cpp_scope.

(** Pure code that may throw ([const] member functions). *)
Definition rbind {A B : Type} (r : result A) (k : A -> result B) : result B :=
  match r with
  | Ok a => k a
  | Throw e => Throw e
  | Fault => Fault
  end.

Section MemoryInterfaces.

(** The build flag: [true] when the file is compiled with
    [-DTRACK_TOKEN_ALLOCATIONS]. *)
Variable TRACK_TOKEN_ALLOCATIONS : bool.

(** *** Buffer *)

Definition Buffer_GetRawMemSize (b : Buffer) : Z := mem_size b.

Definition Buffer_GetRawMemPtr (b : Buffer) : Z := pRawData b.

(** Returns the flag and the buffer with its new [pRawData]. *)
Definition Buffer_Allocate (b : Buffer) : M (bool * Buffer) :=
  if negb (Buffer_GetRawMemSize b =? 0) then
    fun w =>
      let '(p, w') := cudaMallocHost (pRawData b) (Buffer_GetRawMemSize b) w in
      (Ok (negb (p =? nullptr), Buffer_set_pRawData b p), w')
  else ret (true, b).

Definition Buffer_Deallocate (b : Buffer) : M Buffer :=
  (if own_memory b then call (cudaFreeHost (pRawData b)) else ret tt) ;;;
  ret (Buffer_set_pRawData b nullptr).

(** [id = BuffersRegister.AddNote(mem_size)] under the build flag. *)
Definition Buffer_note (b : Buffer) : M Buffer :=
  if TRACK_TOKEN_ALLOCATIONS then
    fun w =>
      let '(id, r) := AddNote (BuffersRegister w) (mem_size b) in
      (Ok (Buffer_set_id b id), set_BuffersRegister w r)
  else ret b.

(** [Buffer::Buffer(size_t bufferSize, bool ownMemory)] *)
Definition Buffer_ctor (bufferSize : Z) (ownMemory : bool) : M Buffer :=
  let this := mkBuffer bufferSize ownMemory Buffer_pRawData_default 0 in
  this <- (if own_memory this then
             r <- Buffer_Allocate this ;;
             if negb (fst r) then throw bad_alloc else ret (snd r)
           else ret this) ;;
  Buffer_note this.

(** [Buffer::Buffer(size_t bufferSize, void *pCopyFrom, bool ownMemory)] *)
Definition Buffer_ctor_from (bufferSize pCopyFrom : Z) (ownMemory : bool)
  : M Buffer :=
  let this := mkBuffer bufferSize ownMemory Buffer_pRawData_default 0 in
  this <- (if own_memory this then
             r <- Buffer_Allocate this ;;
             if fst r then
               memcpy (Buffer_GetRawMemPtr (snd r)) pCopyFrom bufferSize ;;;
               ret (snd r)
             else throw bad_alloc
           else ret (Buffer_set_pRawData this pCopyFrom)) ;;
  Buffer_note this.

(** [Buffer::~Buffer()] *)
Definition Buffer_dtor (b : Buffer) : M unit :=
  b' <- Buffer_Deallocate b ;;
  if TRACK_TOKEN_ALLOCATIONS then
    fun w =>
      (Ok tt,
       set_BuffersRegister w
         (DeleteNote (BuffersRegister w)
                     (mkAllocInfo (buffer_id b') (mem_size b'))))
  else ret tt.

(** [Buffer::Make(size_t bufferSize)] *)
Definition Buffer_Make (bufferSize : Z) : M Buffer :=
  Buffer_ctor bufferSize false.

(** [Buffer::Make(size_t bufferSize, void *pCopyFrom)] *)
Definition Buffer_Make_from (bufferSize pCopyFrom : Z) : M Buffer :=
  Buffer_ctor_from bufferSize pCopyFrom false.

(** [Buffer::MakeOwnMem(size_t bufferSize)] *)
Definition Buffer_MakeOwnMem (bufferSize : Z) : M Buffer :=
  Buffer_ctor bufferSize true.

(** [Buffer::Update(size_t newSize, void *newPtr)] *)
Definition Buffer_Update (b : Buffer) (newSize newPtr : Z) : M Buffer :=
  b <- Buffer_Deallocate b ;;
  let b := Buffer_set_mem_size b newSize in
  if own_memory b then
    r <- Buffer_Allocate b ;;
    let b := snd r in
    (if negb (newPtr =? nullptr)
     then memcpy (Buffer_GetRawMemPtr b) newPtr newSize
     else ret tt) ;;;
    ret b
  else ret (Buffer_set_pRawData b newPtr).

(** *** SurfacePlane *)

(** [SurfacePlane::Allocate()]; the plane with its new [gpuMem], [pitch]
    and [id] is returned.  The call that would throw on a CUDA error is
    commented out in the source, so nothing is thrown here. *)
Definition SurfacePlane_Allocate (p : SurfacePlane) : M SurfacePlane :=
  if negb (OwnMemory p) then ret p
  else
    fun w =>
      let '(d, newPitch, w1) :=
        cuMemAllocPitch (gpuMem p) (wrap32 (width p * elemSize p))
                        (height p) w in
      let p1 := mkSurfacePlane (ownMem p) d (width p) (height p)
                               (wrap32 newPitch) (elemSize p) (ctx p)
                               (plane_id p) in
      if TRACK_TOKEN_ALLOCATIONS then
        let '(id, r) := AddNote (HWSurfaceRegister w1) (GpuMem p1) in
        (Ok (mkSurfacePlane (ownMem p1) (gpuMem p1) (width p1) (height p1)
                            (pitch p1) (elemSize p1) (ctx p1) id),
         set_HWSurfaceRegister w1 r)
      else (Ok p1, w1).

(** [SurfacePlane::Deallocate()]; the fields of the plane are not touched. *)
Definition SurfacePlane_Deallocate (p : SurfacePlane) : M unit :=
  if negb (OwnMemory p) then ret tt
  else
    (if TRACK_TOKEN_ALLOCATIONS then
       call (fun w =>
               set_HWSurfaceRegister w
                 (DeleteNote (HWSurfaceRegister w)
                             (mkAllocInfo (plane_id p) (GpuMem p))))
     else ret tt) ;;;
    call (cuMemFree (gpuMem p)).

(** [SurfacePlane::operator=(const SurfacePlane &other)] *)
Definition SurfacePlane_assign (this other : SurfacePlane) : M SurfacePlane :=
  SurfacePlane_Deallocate this ;;;
  ret (mkSurfacePlane false (gpuMem other) (width other) (height other)
                      (pitch other) (elemSize other) (ctx this)
                      (plane_id this)).

(** [SurfacePlane::SurfacePlane(const SurfacePlane &other)] *)
Definition SurfacePlane_copy (other : SurfacePlane) : M SurfacePlane :=
  ret (mkSurfacePlane false (gpuMem other) (width other) (height other)
                      (pitch other) (elemSize other)
                      (ctx SurfacePlane_default)
                      (plane_id SurfacePlane_default)).

(** [SurfacePlane::SurfacePlane(newWidth, newHeight, newPitch, newElemSize,
    pNewPtr)]: the view constructor. *)
Definition SurfacePlane_view (newWidth newHeight newPitch newElemSize : Z)
           (pNewPtr : Z) : M SurfacePlane :=
  ret (mkSurfacePlane false pNewPtr newWidth newHeight newPitch newElemSize
                      (ctx SurfacePlane_default)
                      (plane_id SurfacePlane_default)).

(** [SurfacePlane::SurfacePlane(newWidth, newHeight, newElemSize, context)]:
    the allocating constructor. *)
Definition SurfacePlane_ctor (newWidth newHeight newElemSize : Z)
           (context : Z) : M SurfacePlane :=
  SurfacePlane_Allocate
    (mkSurfacePlane true (gpuMem SurfacePlane_default) newWidth newHeight
                    (pitch SurfacePlane_default) newElemSize context
                    (plane_id SurfacePlane_default)).

(** [SurfacePlane::~SurfacePlane()] *)
Definition SurfacePlane_dtor (p : SurfacePlane) : M unit :=
  SurfacePlane_Deallocate p.

End MemoryInterfaces.

(** ** Surfaces *)

(** Modelled from the spec: [enum Pixel_Format] is declared in
    MemoryInterfaces.hpp.  The five formats of the family, and a tag outside
    the known set. *)
Inductive Pixel_Format : Type :=
| UNDEFINED
| Y
| RGB
| NV12
| YUV420
| RGB_PLANAR.

(** The five classes derived from [Surface], with their member planes. *)
Inductive Surface : Type :=
| SurfaceY (plane : SurfacePlane)
| SurfaceNV12 (plane : SurfacePlane)
| SurfaceYUV420 (planeY planeU planeV : SurfacePlane)
| SurfaceRGB (plane : SurfacePlane)
| SurfaceRGBPlanar (plane : SurfacePlane).

(** Modelled from the spec: [NumPlanes()] is defined inline in
    MemoryInterfaces.hpp.  PlaneCount is Y=1, NV12=1 (one physical
    allocation), YUV420=3, RGB=1, RGB_PLANAR=1. *)
Definition SurfaceY_NumPlanes : Z := 1.
Definition SurfaceNV12_NumPlanes : Z := 1.
Definition SurfaceYUV420_NumPlanes : Z := 3.
Definition SurfaceRGB_NumPlanes : Z := 1.
Definition SurfaceRGBPlanar_NumPlanes : Z := 1.

(** Modelled from the spec: [ElemSize()] is defined inline in
    MemoryInterfaces.hpp.  Every format of the family stores 8-bit samples,
    one byte per element. *)
Definition Surface_ElemSize : Z := 1.

(** *** SurfaceY *)

Definition SurfaceY_Width (plane : SurfacePlane) (planeNumber : Z) : result Z :=
  if planeNumber <? SurfaceY_NumPlanes then Ok (Plane_Width plane)
  else Throw invalid_argument.

Definition SurfaceY_WidthInBytes (plane : SurfacePlane) (planeNumber : Z)
  : result Z :=
  if planeNumber <? SurfaceY_NumPlanes
  then Ok (wrap32 (Plane_Width plane * Plane_ElemSize plane))
  else Throw invalid_argument.

Definition SurfaceY_Height (plane : SurfacePlane) (planeNumber : Z)
  : result Z :=
  if planeNumber <? SurfaceY_NumPlanes then Ok (Plane_Height plane)
  else Throw invalid_argument.

Definition SurfaceY_Pitch (plane : SurfacePlane) (planeNumber : Z) : result Z :=
  if planeNumber <? SurfaceY_NumPlanes then Ok (Plane_Pitch plane)
  else Throw invalid_argument.

Definition SurfaceY_HostMemSize (plane : SurfacePlane) : Z :=
  GetHostMemSize plane.

Definition SurfaceY_PlanePtr (plane : SurfacePlane) (planeNumber : Z)
  : result Z :=
  if planeNumber <? SurfaceY_NumPlanes then Ok (GpuMem plane)
  else Throw invalid_argument.

(** [return planeNumber ? nullptr : &plane;] *)
Definition SurfaceY_GetSurfacePlane (plane : SurfacePlane) (planeNumber : Z)
  : option SurfacePlane :=
  if negb (planeNumber =? 0) then None else Some plane.

(** *** SurfaceNV12 *)

Definition SurfaceNV12_Width (plane : SurfacePlane) (planeNumber : Z)
  : result Z :=
  match planeNumber with
  | 0 | 1 => Ok (Plane_Width plane)
  | _ => Throw invalid_argument
  end.

Definition SurfaceNV12_WidthInBytes (plane : SurfacePlane) (planeNumber : Z)
  : result Z :=
  match planeNumber with
  | 0 | 1 => Ok (wrap32 (Plane_Width plane * Plane_ElemSize plane))
  | _ => Throw invalid_argument
  end.

Definition SurfaceNV12_Height (plane : SurfacePlane) (planeNumber : Z)
  : result Z :=
  match planeNumber with
  | 0 => Ok (wrap32 (Plane_Height plane * 2) / 3)
  | 1 => Ok (Plane_Height plane / 3)
  | _ => Throw invalid_argument
  end.

Definition SurfaceNV12_Pitch (plane : SurfacePlane) (planeNumber : Z)
  : result Z :=
  match planeNumber with
  | 0 | 1 => Ok (Plane_Pitch plane)
  | _ => Throw invalid_argument
  end.

Definition SurfaceNV12_HostMemSize (plane : SurfacePlane) : Z :=
  GetHostMemSize plane.

(** Case 1 is [plane.GpuMem() + Height() * Pitch()]: both calls take the
    default plane number 0, the product is a [uint32_t] and the sum a
    [CUdeviceptr]. *)
Definition SurfaceNV12_PlanePtr (plane : SurfacePlane) (planeNumber : Z)
  : result Z :=
  match planeNumber with
  | 0 => Ok (GpuMem plane)
  | 1 =>
      rbind (SurfaceNV12_Height plane 0) (fun h =>
      rbind (SurfaceNV12_Pitch plane 0) (fun p =>
      Ok (wrap64 (GpuMem plane + wrap32 (h * p)))))
  | _ => Throw invalid_argument
  end.

Definition SurfaceNV12_GetSurfacePlane (plane : SurfacePlane)
           (planeNumber : Z) : option SurfacePlane :=
  if negb (planeNumber =? 0) then None else Some plane.

(** *** SurfaceYUV420 *)

Definition SurfaceYUV420_Width (planeY planeU planeV : SurfacePlane)
           (planeNumber : Z) : result Z :=
  match planeNumber with
  | 0 => Ok (Plane_Width planeY)
  | 1 => Ok (Plane_Width planeU)
  | 2 => Ok (Plane_Width planeV)
  | _ => Throw invalid_argument
  end.

Definition SurfaceYUV420_WidthInBytes (planeY planeU planeV : SurfacePlane)
           (planeNumber : Z) : result Z :=
  match planeNumber with
  | 0 => Ok (wrap32 (Plane_Width planeY * Plane_ElemSize planeY))
  | 1 => Ok (wrap32 (Plane_Width planeU * Plane_ElemSize planeU))
  | 2 => Ok (wrap32 (Plane_Width planeV * Plane_ElemSize planeV))
  | _ => Throw invalid_argument
  end.

Definition SurfaceYUV420_Height (planeY planeU planeV : SurfacePlane)
           (planeNumber : Z) : result Z :=
  match planeNumber with
  | 0 => Ok (Plane_Height planeY)
  | 1 => Ok (Plane_Height planeU)
  | 2 => Ok (Plane_Height planeV)
  | _ => Throw invalid_argument
  end.

Definition SurfaceYUV420_Pitch (planeY planeU planeV : SurfacePlane)
           (planeNumber : Z) : result Z :=
  match planeNumber with
  | 0 => Ok (Plane_Pitch planeY)
  | 1 => Ok (Plane_Pitch planeU)
  | 2 => Ok (Plane_Pitch planeV)
  | _ => Throw invalid_argument
  end.

Definition SurfaceYUV420_HostMemSize (planeY planeU planeV : SurfacePlane)
  : Z :=
  wrap32 (wrap32 (GetHostMemSize planeY + GetHostMemSize planeU)
          + GetHostMemSize planeV).

Definition SurfaceYUV420_PlanePtr (planeY planeU planeV : SurfacePlane)
           (planeNumber : Z) : result Z :=
  match planeNumber with
  | 0 => Ok (GpuMem planeY)
  | 1 => Ok (GpuMem planeU)
  | 2 => Ok (GpuMem planeV)
  | _ => Throw invalid_argument
  end.

Definition SurfaceYUV420_GetSurfacePlane (planeY planeU planeV : SurfacePlane)
           (planeNumber : Z) : option SurfacePlane :=
  match planeNumber with
  | 0 => Some planeY
  | 1 => Some planeU
  | 2 => Some planeV
  | _ => None
  end.

(** *** SurfaceRGB *)

Definition SurfaceRGB_Width (plane : SurfacePlane) (planeNumber : Z)
  : result Z :=
  if planeNumber <? SurfaceRGB_NumPlanes then Ok (Plane_Width plane / 3)
  else Throw invalid_argument.

Definition SurfaceRGB_WidthInBytes (plane : SurfacePlane) (planeNumber : Z)
  : result Z :=
  if planeNumber <? SurfaceRGB_NumPlanes
  then Ok (wrap32 (Plane_Width plane * Plane_ElemSize plane))
  else Throw invalid_argument.

Definition SurfaceRGB_Height (plane : SurfacePlane) (planeNumber : Z)
  : result Z :=
  if planeNumber <? SurfaceRGB_NumPlanes then Ok (Plane_Height plane)
  else Throw invalid_argument.

Definition SurfaceRGB_Pitch (plane : SurfacePlane) (planeNumber : Z)
  : result Z :=
  if planeNumber <? SurfaceRGB_NumPlanes then Ok (Plane_Pitch plane)
  else Throw invalid_argument.

Definition SurfaceRGB_HostMemSize (plane : SurfacePlane) : Z :=
  GetHostMemSize plane.

Definition SurfaceRGB_PlanePtr (plane : SurfacePlane) (planeNumber : Z)
  : result Z :=
  if planeNumber <? SurfaceRGB_NumPlanes then Ok (GpuMem plane)
  else Throw invalid_argument.

Definition SurfaceRGB_GetSurfacePlane (plane : SurfacePlane)
           (planeNumber : Z) : option SurfacePlane :=
  if negb (planeNumber =? 0) then None else Some plane.

(** *** SurfaceRGBPlanar *)

Definition SurfaceRGBPlanar_Width (plane : SurfacePlane) (planeNumber : Z)
  : result Z :=
  if planeNumber <? SurfaceRGBPlanar_NumPlanes then Ok (Plane_Width plane)
  else Throw invalid_argument.

Definition SurfaceRGBPlanar_WidthInBytes (plane : SurfacePlane)
           (planeNumber : Z) : result Z :=
  if planeNumber <? SurfaceRGBPlanar_NumPlanes
  then Ok (wrap32 (Plane_Width plane * Plane_ElemSize plane))
  else Throw invalid_argument.

Definition SurfaceRGBPlanar_Height (plane : SurfacePlane) (planeNumber : Z)
  : result Z :=
  if planeNumber <? SurfaceRGBPlanar_NumPlanes then Ok (Plane_Height plane / 3)
  else Throw invalid_argument.

Definition SurfaceRGBPlanar_Pitch (plane : SurfacePlane) (planeNumber : Z)
  : result Z :=
  if planeNumber <? SurfaceRGBPlanar_NumPlanes then Ok (Plane_Pitch plane)
  else Throw invalid_argument.

Definition SurfaceRGBPlanar_HostMemSize (plane : SurfacePlane) : Z :=
  GetHostMemSize plane.

Definition SurfaceRGBPlanar_PlanePtr (plane : SurfacePlane) (planeNumber : Z)
  : result Z :=
  if planeNumber <? SurfaceRGBPlanar_NumPlanes then Ok (GpuMem plane)
  else Throw invalid_argument.

Definition SurfaceRGBPlanar_GetSurfacePlane (plane : SurfacePlane)
           (planeNumber : Z) : option SurfacePlane :=
  if negb (planeNumber =? 0) then None else Some plane.

(** *** Virtual dispatch through [Surface *] *)

Definition NumPlanes (s : Surface) : Z :=
  match s with
  | SurfaceY _ => SurfaceY_NumPlanes
  | SurfaceNV12 _ => SurfaceNV12_NumPlanes
  | SurfaceYUV420 _ _ _ => SurfaceYUV420_NumPlanes
  | SurfaceRGB _ => SurfaceRGB_NumPlanes
  | SurfaceRGBPlanar _ => SurfaceRGBPlanar_NumPlanes
  end.

Definition Width (s : Surface) (planeNumber : Z) : result Z :=
  match s with
  | SurfaceY p => SurfaceY_Width p planeNumber
  | SurfaceNV12 p => SurfaceNV12_Width p planeNumber
  | SurfaceYUV420 py pu pv => SurfaceYUV420_Width py pu pv planeNumber
  | SurfaceRGB p => SurfaceRGB_Width p planeNumber
  | SurfaceRGBPlanar p => SurfaceRGBPlanar_Width p planeNumber
  end.

Definition WidthInBytes (s : Surface) (planeNumber : Z) : result Z :=
  match s with
  | SurfaceY p => SurfaceY_WidthInBytes p planeNumber
  | SurfaceNV12 p => SurfaceNV12_WidthInBytes p planeNumber
  | SurfaceYUV420 py pu pv => SurfaceYUV420_WidthInBytes py pu pv planeNumber
  | SurfaceRGB p => SurfaceRGB_WidthInBytes p planeNumber
  | SurfaceRGBPlanar p => SurfaceRGBPlanar_WidthInBytes p planeNumber
  end.

Definition Height (s : Surface) (planeNumber : Z) : result Z :=
  match s with
  | SurfaceY p => SurfaceY_Height p planeNumber
  | SurfaceNV12 p => SurfaceNV12_Height p planeNumber
  | SurfaceYUV420 py pu pv => SurfaceYUV420_Height py pu pv planeNumber
  | SurfaceRGB p => SurfaceRGB_Height p planeNumber
  | SurfaceRGBPlanar p => SurfaceRGBPlanar_Height p planeNumber
  end.

Definition Pitch (s : Surface) (planeNumber : Z) : result Z :=
  match s with
  | SurfaceY p => SurfaceY_Pitch p planeNumber
  | SurfaceNV12 p => SurfaceNV12_Pitch p planeNumber
  | SurfaceYUV420 py pu pv => SurfaceYUV420_Pitch py pu pv planeNumber
  | SurfaceRGB p => SurfaceRGB_Pitch p planeNumber
  | SurfaceRGBPlanar p => SurfaceRGBPlanar_Pitch p planeNumber
  end.

Definition PlanePtr (s : Surface) (planeNumber : Z) : result Z :=
  match s with
  | SurfaceY p => SurfaceY_PlanePtr p planeNumber
  | SurfaceNV12 p => SurfaceNV12_PlanePtr p planeNumber
  | SurfaceYUV420 py pu pv => SurfaceYUV420_PlanePtr py pu pv planeNumber
  | SurfaceRGB p => SurfaceRGB_PlanePtr p planeNumber
  | SurfaceRGBPlanar p => SurfaceRGBPlanar_PlanePtr p planeNumber
  end.

Definition GetSurfacePlane (s : Surface) (planeNumber : Z)
  : option SurfacePlane :=
  match s with
  | SurfaceY p => SurfaceY_GetSurfacePlane p planeNumber
  | SurfaceNV12 p => SurfaceNV12_GetSurfacePlane p planeNumber
  | SurfaceYUV420 py pu pv => SurfaceYUV420_GetSurfacePlane py pu pv planeNumber
  | SurfaceRGB p => SurfaceRGB_GetSurfacePlane p planeNumber
  | SurfaceRGBPlanar p => SurfaceRGBPlanar_GetSurfacePlane p planeNumber
  end.

Section SurfaceLifecycle.

Variable TRACK_TOKEN_ALLOCATIONS : bool.

Let plane_ctor := SurfacePlane_ctor TRACK_TOKEN_ALLOCATIONS.
Let plane_assign := SurfacePlane_assign TRACK_TOKEN_ALLOCATIONS.
Let plane_dtor := SurfacePlane_dtor TRACK_TOKEN_ALLOCATIONS.

(** *** Allocating constructors; [uint32_t] arithmetic on the arguments *)

Definition SurfaceY_ctor (width height context : Z) : M Surface :=
  plane <- plane_ctor width height Surface_ElemSize context ;;
  ret (SurfaceY plane).

Definition SurfaceNV12_ctor (width height context : Z) : M Surface :=
  plane <- plane_ctor width (wrap32 (height * 3) / 2) Surface_ElemSize
                      context ;;
  ret (SurfaceNV12 plane).

Definition SurfaceYUV420_ctor (width height context : Z) : M Surface :=
  planeY <- plane_ctor width height Surface_ElemSize context ;;
  planeU <- plane_ctor (width / 2) (height / 2) Surface_ElemSize context ;;
  planeV <- plane_ctor (width / 2) (height / 2) Surface_ElemSize context ;;
  ret (SurfaceYUV420 planeY planeU planeV).

Definition SurfaceRGB_ctor (width height context : Z) : M Surface :=
  plane <- plane_ctor (wrap32 (width * 3)) height Surface_ElemSize context ;;
  ret (SurfaceRGB plane).

Definition SurfaceRGBPlanar_ctor (width height context : Z) : M Surface :=
  plane <- plane_ctor width (wrap32 (height * 3)) Surface_ElemSize context ;;
  ret (SurfaceRGBPlanar plane).

(** [Surface::Make(Pixel_Format)]: [None] is the null pointer. *)
Definition Surface_Make_default (format : Pixel_Format) : option Surface :=
  match format with
  | Y => Some (SurfaceY SurfacePlane_default)
  | RGB => Some (SurfaceRGB SurfacePlane_default)
  | NV12 => Some (SurfaceNV12 SurfacePlane_default)
  | YUV420 =>
      Some (SurfaceYUV420 SurfacePlane_default SurfacePlane_default
                          SurfacePlane_default)
  | RGB_PLANAR => Some (SurfaceRGBPlanar SurfacePlane_default)
  | UNDEFINED => None
  end.

(** [Surface::Make(Pixel_Format, newWidth, newHeight, context)] *)
Definition Surface_Make (format : Pixel_Format) (newWidth newHeight : Z)
           (context : Z) : M (option Surface) :=
  match format with
  | Y => s <- SurfaceY_ctor newWidth newHeight context ;; ret (Some s)
  | NV12 => s <- SurfaceNV12_ctor newWidth newHeight context ;; ret (Some s)
  | YUV420 => s <- SurfaceYUV420_ctor newWidth newHeight context ;; ret (Some s)
  | RGB => s <- SurfaceRGB_ctor newWidth newHeight context ;; ret (Some s)
  | RGB_PLANAR =>
      s <- SurfaceRGBPlanar_ctor newWidth newHeight context ;; ret (Some s)
  | UNDEFINED => ret None
  end.

(** *** Copy constructors and [Clone] *)

(** [Clone] builds a new surface of the same class with the copy constructor,
    which copy-constructs every member plane. *)
Definition Clone (s : Surface) : M Surface :=
  match s with
  | SurfaceY plane =>
      p <- SurfacePlane_copy plane ;; ret (SurfaceY p)
  | SurfaceNV12 plane =>
      p <- SurfacePlane_copy plane ;; ret (SurfaceNV12 p)
  | SurfaceYUV420 planeY planeU planeV =>
      py <- SurfacePlane_copy planeY ;;
      pu <- SurfacePlane_copy planeU ;;
      pv <- SurfacePlane_copy planeV ;;
      ret (SurfaceYUV420 py pu pv)
  | SurfaceRGB plane =>
      p <- SurfacePlane_copy plane ;; ret (SurfaceRGB p)
  | SurfaceRGBPlanar plane =>
      p <- SurfacePlane_copy plane ;; ret (SurfaceRGBPlanar p)
  end.

(** [N] successive clones of one surface, all kept alive. *)
Fixpoint clones (N : nat) (s : Surface) : M (list Surface) :=
  match N with
  | O => ret []
  | S n => c <- Clone s ;; cs <- clones n s ;; ret (c :: cs)
  end.

(** The implicit destructors: member planes are destroyed in reverse order
    of declaration. *)
Definition Surface_dtor (s : Surface) : M unit :=
  match s with
  | SurfaceY plane | SurfaceNV12 plane | SurfaceRGB plane
  | SurfaceRGBPlanar plane => plane_dtor plane
  | SurfaceYUV420 planeY planeU planeV =>
      plane_dtor planeV ;;; plane_dtor planeU ;;; plane_dtor planeY
  end.

(** *** [Update] *)

Definition SurfaceY_Update (plane newPlane : SurfacePlane) : M Surface :=
  plane <- plane_assign plane newPlane ;; ret (SurfaceY plane).

Definition SurfaceNV12_Update (plane newPlane : SurfacePlane) : M Surface :=
  plane <- plane_assign plane newPlane ;; ret (SurfaceNV12 plane).

(** [planeY = newPlaneY; planeU = newPlaneY; planeV = newPlaneV;] *)
Definition SurfaceYUV420_Update (planeY planeU planeV : SurfacePlane)
           (newPlaneY newPlaneU newPlaneV : SurfacePlane) : M Surface :=
  planeY <- plane_assign planeY newPlaneY ;;
  planeU <- plane_assign planeU newPlaneY ;;
  planeV <- plane_assign planeV newPlaneV ;;
  ret (SurfaceYUV420 planeY planeU planeV).

Definition SurfaceRGB_Update (plane newPlane : SurfacePlane) : M Surface :=
  plane <- plane_assign plane newPlane ;; ret (SurfaceRGB plane).

Definition SurfaceRGBPlanar_Update (plane newPlane : SurfacePlane)
  : M Surface :=
  plane <- plane_assign plane newPlane ;; ret (SurfaceRGBPlanar plane).

End SurfaceLifecycle.

(** ** Observations used by the properties *)

(** [q] is a view of [p]: it does not own, and it has the device pointer and
    the geometry of [p]. *)
Definition view_of (q p : SurfacePlane) : Prop :=
  ownMem q = false /\ gpuMem q = gpuMem p /\ width q = width p /\
  height q = height p /\ pitch q = pitch p /\ elemSize q = elemSize p.

Definition planes_of (s : Surface) : list SurfacePlane :=
  match s with
  | SurfaceY p | SurfaceNV12 p | SurfaceRGB p | SurfaceRGBPlanar p => [p]
  | SurfaceYUV420 py pu pv => [py; pu; pv]
  end.

Definition same_variant (s c : Surface) : Prop :=
  match s, c with
  | SurfaceY _, SurfaceY _ | SurfaceNV12 _, SurfaceNV12 _
  | SurfaceYUV420 _ _ _, SurfaceYUV420 _ _ _ | SurfaceRGB _, SurfaceRGB _
  | SurfaceRGBPlanar _, SurfaceRGBPlanar _ => True
  | _, _ => False
  end.

(** The live allocation count: the entries of the device-plane register. *)
Definition LiveCount (w : World) : Z := GetSize (HWSurfaceRegister w).

(** The bytes one logical plane reports: [WidthInBytes(i) * Height(i)] where
    both queries answer, nothing where they throw. *)
Definition plane_bytes (s : Surface) (i : Z) : Z :=
  match WidthInBytes s i, Height s i with
  | Ok wb, Ok h => wb * h
  | _, _ => 0
  end.

(** The sum over the plane numbers [0 .. n-1]. *)
Fixpoint sum_plane_bytes (s : Surface) (n : nat) : Z :=
  match n with
  | O => 0
  | S k => sum_plane_bytes s k + plane_bytes s (Z.of_nat k)
  end.

(** The byte count each format is expected to have, as the claim gives it. *)
Definition expected_bytes (format : Pixel_Format) (W H : Z) : Z :=
  match format with
  | Y => W * H
  | NV12 => W * H + W * (H / 2)
  | YUV420 => W * H + 2 * ((W / 2) * (H / 2))
  | RGB => 3 * (W * H)
  | RGB_PLANAR => 3 * (W * H)
  | UNDEFINED => 0
  end.

Definition is_uint32 (z : Z) : Prop := 0 <= z < 2 ^ 32.

(** * Properties *)

(** ** Concrete worlds and planes used in the examples *)

(** A fresh process: empty registers, nothing allocated, a driver that has
    no memory to give. *)
Definition World_init : World :=
  mkWorld AllocRegister_init AllocRegister_init [] (fun _ => 0) [] [] []
          [] [].

(** The same, with the given answers queued in the two allocators. *)
Definition World_with (host : list (option Z)) (dev : list AllocPitchAnswer)
  : World :=
  mkWorld AllocRegister_init AllocRegister_init [] (fun a => a mod 256) []
          host dev [] [].

Definition view_plane (w h pt ptr : Z) : SurfacePlane :=
  mkSurfacePlane false ptr w h pt 1 nullptr 0.

(** ** Allocation faults *)

(** The pinned-host allocator returns no memory: after the call the pointer
    it was given is still null. *)
Definition cudaMallocHost_fails (w : World) : Prop :=
  forall size, fst (cudaMallocHost nullptr size w) = nullptr.


(** The pinned-host allocator was not called between two worlds: no answer
    was consumed and the live regions are the same. *)
Definition host_allocator_untouched (w w' : World) : Prop :=
  host_driver w' = host_driver w /\ host_live w' = host_live w.

(** ** The rest of the register and the leak check *)

(** [AllocRegister::GetNoteByIndex]: [None] is the null pointer. *)
Definition GetNoteByIndex (reg : AllocRegister) (idx : Z) : option AllocInfo :=
  if idx <? GetSize reg then nth_error (instances reg) (Z.to_nat idx)
  else None.

(** What [CheckAllocationCounters] writes to [cerr], line by line. *)
Inductive cerr_line : Type :=
| LeakedBuffersHeader                  (* "Leaked buffers (id : size): " *)
| LeakedSurfacesHeader                 (* "Leaked surfaces (id : size): " *)
| LeakedNote (id size : Z).            (* "\t" id "\t: " size *)

(** The loop [for (auto i = 0; i < numLeaked; i++)] from index [i]
    on, with [remaining] iterations to go: each one fetches the note with
    [GetNoteByIndex(i)] and prints [pNote->id] and [pNote->size].  [None] is
    the dereference of a null [pNote].  The counter is an [int] in the
    source; it is not bounded here, which is the same for registers of
    fewer than 2^31 notes. *)
Fixpoint print_leaked (reg : AllocRegister) (i : Z) (remaining : nat)
  : option (list cerr_line) :=
  match remaining with
  | O => Some []
  | S k =>
      match GetNoteByIndex reg i with
      | Some pNote =>
          match print_leaked reg (i + 1) k with
          | Some rest =>
              Some (LeakedNote (note_id pNote) (note_size pNote) :: rest)
          | None => None
          end
      | None => None
      end
  end.

(** One [if (numLeaked) { ... }] block. *)
Definition report_leaks (header : cerr_line) (reg : AllocRegister)
  : option (list cerr_line) :=
  let numLeaked := GetSize reg in
  if negb (numLeaked =? 0) then
    match print_leaked reg 0 (Z.to_nat numLeaked) with
    | Some notes => Some (header :: notes)
    | None => None
    end
  else Some [].

(** [CheckAllocationCounters()]: the answer and what went to [cerr]. *)
Definition CheckAllocationCounters (w : World)
  : option (bool * list cerr_line) :=
  let numLeakedBuffers := GetSize (BuffersRegister w) in
  let numLeakedSurfaces := GetSize (HWSurfaceRegister w) in
  match report_leaks LeakedBuffersHeader (BuffersRegister w) with
  | Some out1 =>
      match report_leaks LeakedSurfacesHeader (HWSurfaceRegister w) with
      | Some out2 =>
          Some ((numLeakedBuffers =? 0) && (numLeakedSurfaces =? 0),
                out1 ++ out2)
      | None => None
      end
  | None => None
  end.

(** ** Assignment between surfaces of one class *)

Section SurfaceAssignment.

Variable TRACK_TOKEN_ALLOCATIONS : bool.

Let plane_assign := SurfacePlane_assign TRACK_TOKEN_ALLOCATIONS.

(** [SurfaceY::operator=]: [plane = other.plane]. *)
Definition SurfaceY_assign (plane other_plane : SurfacePlane) : M Surface :=
  plane <- plane_assign plane other_plane ;; ret (SurfaceY plane).

Definition SurfaceNV12_assign (plane other_plane : SurfacePlane)
  : M Surface :=
  plane <- plane_assign plane other_plane ;; ret (SurfaceNV12 plane).

(** [planeY = other.planeY; planeU = other.planeU; planeV = other.planeV;] *)
Definition SurfaceYUV420_assign (planeY planeU planeV : SurfacePlane)
           (other_planeY other_planeU other_planeV : SurfacePlane)
  : M Surface :=
  planeY <- plane_assign planeY other_planeY ;;
  planeU <- plane_assign planeU other_planeU ;;
  planeV <- plane_assign planeV other_planeV ;;
  ret (SurfaceYUV420 planeY planeU planeV).

Definition SurfaceRGB_assign (plane other_plane : SurfacePlane) : M Surface :=
  plane <- plane_assign plane other_plane ;; ret (SurfaceRGB plane).

Definition SurfaceRGBPlanar_assign (plane other_plane : SurfacePlane)
  : M Surface :=
  plane <- plane_assign plane other_plane ;; ret (SurfaceRGBPlanar plane).

End SurfaceAssignment.

(** ** Conditions on a register and on the driver *)

(** Every note of the register has an identity below the counter, and no
    two notes share one. *)
Definition reg_inv (reg : AllocRegister) : Prop :=
  NoDup (map note_id (instances reg)) /\
  Forall (fun n => 0 <= note_id n < ID reg) (instances reg).

(** The counter can still be incremented [k] times without wrapping. *)
Definition ID_room (k : Z) (reg : AllocRegister) : Prop :=
  0 <= ID reg /\ ID reg + k < 2 ^ 64.

Definition has_note (reg : AllocRegister) (id : Z) : Prop :=
  In id (map note_id (instances reg)).

(** A successful answer of the device allocator is never the null pointer. *)
Definition answer_nonnull (a : AllocPitchAnswer) : Prop :=
  match a with
  | AllocPitchOk d _ => d <> nullptr
  | AllocPitchFail _ => True
  end.

(** The device side of a world as the driver keeps it: the null pointer is
    not a live region and is never handed out. *)
Definition dev_wf (w : World) : Prop :=
  ~ In nullptr (dev_live w) /\ Forall answer_nonnull (dev_driver w).

(** The device-plane register can take [k] more notes. *)
Definition HW_ready (k : Z) (w : World) : Prop :=
  reg_inv (HWSurfaceRegister w) /\ ID_room k (HWSurfaceRegister w).

(** The tag whose case of [Surface::Make] builds the class of [s]. *)
Definition format_of (s : Surface) : Pixel_Format :=
  match s with
  | SurfaceY _ => Y
  | SurfaceNV12 _ => NV12
  | SurfaceYUV420 _ _ _ => YUV420
  | SurfaceRGB _ => RGB
  | SurfaceRGBPlanar _ => RGB_PLANAR
  end.

(** ** Basic facts about machine integers, the registers and planes *)

Lemma wrap32_small (z : Z) : 0 <= z < 2 ^ 32 -> wrap32 z = z.
Proof. intros Hz. unfold wrap32. apply Z.mod_small. exact Hz. Qed.

Lemma GetSize_DeleteNote (reg : AllocRegister) (info : AllocInfo) :
  GetSize (DeleteNote reg info) <= GetSize reg.
Proof.
  unfold GetSize, DeleteNote. simpl.
  apply Nat2Z.inj_le. apply filter_length_le.
Qed.

Lemma view_of_assigned (this other : SurfacePlane) :
  view_of (mkSurfacePlane false (gpuMem other) (width other) (height other)
                          (pitch other) (elemSize other) (ctx this)
                          (plane_id this)) other.
Proof. unfold view_of. simpl. tauto. Qed.

(** [SurfacePlane::Deallocate] never throws. *)
Lemma SurfacePlane_Deallocate_ok (track : bool) (p : SurfacePlane) (w : World) :
  exists w', SurfacePlane_Deallocate track p w = (Ok tt, w').
Proof.
  unfold SurfacePlane_Deallocate.
  destruct (OwnMemory p); simpl; [| eexists; reflexivity].
  destruct track; unfold bind, call, ret; simpl; eexists; reflexivity.
Qed.

(** A plane that does not own is deallocated without any effect. *)
Lemma SurfacePlane_Deallocate_view (track : bool) (p : SurfacePlane)
      (w : World) :
  ownMem p = false -> SurfacePlane_Deallocate track p w = (Ok tt, w).
Proof.
  intros Hown. unfold SurfacePlane_Deallocate, OwnMemory.
  rewrite Hown. reflexivity.
Qed.

(** Assignment always succeeds and makes the left-hand side a view. *)
Lemma SurfacePlane_assign_view (track : bool) (this other : SurfacePlane)
      (w : World) :
  exists q w', SurfacePlane_assign track this other w = (Ok q, w') /\
               view_of q other.
Proof.
  unfold SurfacePlane_assign, bind.
  destruct (SurfacePlane_Deallocate_ok track this w) as [w' ->].
  unfold ret. do 2 eexists. split; [reflexivity | apply view_of_assigned].
Qed.

(** ** C1: SurfaceYUV420::Update *)

(** What [Update] does with its three arguments, for every input: the U
    plane becomes a view of [newPlaneY]; [newPlaneU] is never read. *)
Lemma SurfaceYUV420_Update_views (track : bool)
      (planeY planeU planeV newPlaneY newPlaneU newPlaneV : SurfacePlane)
      (w : World) :
  exists py pu pv w',
    SurfaceYUV420_Update track planeY planeU planeV
                         newPlaneY newPlaneU newPlaneV w
    = (Ok (SurfaceYUV420 py pu pv), w') /\
    view_of py newPlaneY /\ view_of pu newPlaneY /\ view_of pv newPlaneV.
Proof.
  unfold SurfaceYUV420_Update, bind.
  destruct (SurfacePlane_assign_view track planeY newPlaneY w)
    as (py & w1 & -> & Hy).
  destruct (SurfacePlane_assign_view track planeU newPlaneY w1)
    as (pu & w2 & -> & Hu).
  destruct (SurfacePlane_assign_view track planeV newPlaneV w2)
    as (pv & w3 & -> & Hv).
  unfold ret. exists py, pu, pv, w3. auto.
Qed.

(** C1: at three distinct planes, [Update(newPlaneY, newPlaneU, newPlaneV)]
    on a default YUV420 surface leaves the U plane a view of [newPlaneY]
    and not a view of [newPlaneU]: the claim that each plane becomes a view
    of the corresponding argument does not hold of the code. *)
Theorem SurfaceYUV420_Update_planeU_is_newPlaneY :
  let newPlaneY := view_plane 640 480 1024 4096 in
  let newPlaneU := view_plane 320 240 512 8192 in
  let newPlaneV := view_plane 320 240 512 12288 in
  exists py pu pv w',
    SurfaceYUV420_Update true SurfacePlane_default SurfacePlane_default
                         SurfacePlane_default newPlaneY newPlaneU newPlaneV
                         World_init
    = (Ok (SurfaceYUV420 py pu pv), w') /\
    view_of py newPlaneY /\ view_of pv newPlaneV /\
    view_of pu newPlaneY /\ ~ view_of pu newPlaneU /\
    PlanePtr (SurfaceYUV420 py pu pv) 1 = Ok 4096.
Proof.
  cbv zeta.
  do 4 eexists. split; [reflexivity |].
  repeat split; try reflexivity.
  intros (_ & Hptr & _). simpl in Hptr. discriminate Hptr.
Qed.

(** ** C8: Buffer::Update on a non-owning buffer *)

(** C8: for a buffer that does not own its memory, [Update(s, p)] returns
    normally, the raw pointer is then exactly [p], the raw size is [s], and
    the world (both registers, both allocators, host memory) is the one
    before the call. *)
Theorem Buffer_Update_view_rebinds (b : Buffer) (s p : Z) (w : World)
        (Hview : own_memory b = false) :
  exists b',
    Buffer_Update b s p w = (Ok b', w) /\
    Buffer_GetRawMemPtr b' = p /\
    Buffer_GetRawMemSize b' = s /\
    own_memory b' = false.
Proof.
  unfold Buffer_Update, Buffer_Deallocate, bind.
  rewrite Hview. simpl. rewrite Hview.
  eexists. split; [reflexivity |]. simpl. auto.
Qed.

Lemma Buffer_Update_view_rebinds_witness :
  let b := mkBuffer 16 false 1000 0 in
  own_memory b = false /\
  exists b',
    Buffer_Update b 32 2000 (World_with [Some 5000] []) =
      (Ok b', World_with [Some 5000] []) /\
    Buffer_GetRawMemPtr b' = 2000 /\
    Buffer_GetRawMemSize b' = 32 /\
    own_memory b' = false.
Proof.
  cbv zeta. split; [reflexivity |].
  apply (Buffer_Update_view_rebinds (mkBuffer 16 false 1000 0) 32 2000
                                    (World_with [Some 5000] [])).
  reflexivity.
Defined.

(** ** C10: an owning buffer of size 0 *)

(** C10: constructing an owning buffer of size 0 returns normally whatever
    the allocator would answer; the pinned-host allocator is not called,
    the raw pointer is null and the size 0; with tracking enabled a note of
    size 0 is appended to the buffers register, without it the register is
    unchanged. *)
Theorem Buffer_ctor_own_zero (track : bool) (w : World) :
  exists b w',
    Buffer_ctor track 0 true w = (Ok b, w') /\
    Buffer_MakeOwnMem track 0 w = (Ok b, w') /\
    Buffer_GetRawMemPtr b = nullptr /\
    Buffer_GetRawMemSize b = 0 /\
    own_memory b = true /\
    host_allocator_untouched w w' /\
    instances (BuffersRegister w') =
      (if track
       then instances (BuffersRegister w)
            ++ [mkAllocInfo (ID (BuffersRegister w)) 0]
       else instances (BuffersRegister w)).
Proof.
  unfold Buffer_MakeOwnMem, Buffer_ctor, Buffer_note, host_allocator_untouched.
  destruct track; simpl; do 2 eexists; repeat split; reflexivity.
Qed.

(** ** C5: the two allocation failures *)

Lemma cudaMallocHost_fails_keeps_null (w : World) (size : Z) :
  cudaMallocHost_fails w ->
  exists w', cudaMallocHost nullptr size w = (nullptr, w').
Proof.
  intros Hfail. specialize (Hfail size).
  destruct (cudaMallocHost nullptr size w) as [p w'] eqn:E.
  simpl in Hfail. subst p. exists w'. reflexivity.
Qed.

(** An owning buffer of non-zero size whose allocation fails: [Allocate]
    answers [false] and leaves the raw pointer null. *)
Lemma Buffer_Allocate_fails (bufferSize : Z) (w : World) :
  bufferSize <> 0 ->
  cudaMallocHost_fails w ->
  exists w',
    Buffer_Allocate (mkBuffer bufferSize true Buffer_pRawData_default 0) w
    = (Ok (false, mkBuffer bufferSize true nullptr 0), w').
Proof.
  intros Hsize Hfail. unfold Buffer_Allocate, Buffer_GetRawMemSize. simpl.
  apply Z.eqb_neq in Hsize. rewrite Hsize. simpl.
  unfold Buffer_pRawData_default.
  destruct (cudaMallocHost_fails_keeps_null w bufferSize Hfail) as [w' ->].
  exists w'. reflexivity.
Qed.



(** ** C3: Buffer::Make(size, pCopyFrom) *)

(** A copy between two accessible ranges that do not overlap is defined,
    and writes the bytes of the source over the destination. *)
Lemma memcpy_defined (dst src n : Z) (w : World) :
  0 < n ->
  accessible w dst n = true ->
  accessible w src n = true ->
  disjoint dst src n = true ->
  memcpy dst src n w
  = (Ok tt,
     set_host_mem w
       (fun a => if (dst <=? a) && (a <? dst + n)
                 then host_mem w (src + (a - dst))
                 else host_mem w a)).
Proof.
  intros Hn Hdst Hsrc Hdisj. unfold memcpy.
  replace (n =? 0) with false by (symmetry; apply Z.eqb_neq; lia).
  rewrite Hdst, Hsrc, Hdisj. reflexivity.
Qed.

(** A region that has just been made accessible is accessible, and so is
    everything that was. *)
Lemma accessible_new_region (w : World) (q n : Z) (valid : list (Z * Z)) :
  0 < q -> 0 <= n ->
  host_valid w = (q, n) :: valid ->
  accessible w q n = true.
Proof.
  intros Hq Hn Hvalid. unfold accessible. rewrite Hvalid. simpl.
  unfold in_region. simpl.
  replace (0 <? q) with true by (symmetry; apply Z.ltb_lt; lia).
  rewrite !Z.leb_refl. reflexivity.
Qed.

Lemma accessible_older_region (w w' : World) (r : Z * Z) (a n : Z) :
  host_valid w' = r :: host_valid w ->
  accessible w a n = true ->
  accessible w' a n = true.
Proof.
  intros Hvalid. unfold accessible. rewrite Hvalid. simpl.
  intros Hacc. apply andb_true_iff in Hacc. destruct Hacc as [Hpos Hin].
  rewrite Hpos, Hin. rewrite orb_true_r. reflexivity.
Qed.

(** The owning three-argument constructor with a successful allocation and
    a readable source that does not overlap the new region: a region of
    [bufferSize] bytes is made accessible, the buffer sits at it and the
    bytes of the source are there. *)
Lemma Buffer_ctor_from_own_copies (track : bool) (bufferSize pCopyFrom : Z)
      (w : World) (q : Z) (rest : list (option Z)) :
  0 < bufferSize ->
  0 < q ->
  host_driver w = Some q :: rest ->
  accessible w pCopyFrom bufferSize = true ->
  disjoint q pCopyFrom bufferSize = true ->
  exists b w',
    Buffer_ctor_from track bufferSize pCopyFrom true w = (Ok b, w') /\
    Buffer_GetRawMemPtr b = q /\
    Buffer_GetRawMemSize b = bufferSize /\
    own_memory b = true /\
    host_live w' = q :: host_live w /\
    host_valid w' = (q, bufferSize) :: host_valid w /\
    host_driver w' = rest /\
    forall i, 0 <= i < bufferSize ->
              host_mem w' (q + i) = host_mem w (pCopyFrom + i).
Proof.
  intros Hsize Hq Hdrv Hsrc Hdisj.
  unfold Buffer_ctor_from, bind, Buffer_Allocate, Buffer_GetRawMemSize,
    cudaMallocHost.
  simpl.
  replace (bufferSize =? 0) with false by (symmetry; apply Z.eqb_neq; lia).
  simpl. rewrite Hdrv. simpl.
  replace (q =? nullptr) with false
    by (symmetry; apply Z.eqb_neq; unfold nullptr; lia).
  simpl. unfold Buffer_GetRawMemPtr. simpl.
  set (w1 := set_host_valid (set_host w (q :: host_live w) rest)
                            ((q, bufferSize) :: host_valid w)).
  assert (Hvalid1 : host_valid w1 = (q, bufferSize) :: host_valid w)
    by reflexivity.
  rewrite (memcpy_defined q pCopyFrom bufferSize w1 Hsize
             (accessible_new_region w1 q bufferSize _ Hq ltac:(lia) Hvalid1)
             (accessible_older_region w w1 _ _ _ Hvalid1 Hsrc) Hdisj).
  unfold Buffer_note, ret.
  destruct track; simpl; do 2 eexists;
    (split; [reflexivity |]); simpl; repeat split; trivial;
    intros i Hi;
    replace (q <=? q + i) with true by (symmetry; apply Z.leb_le; lia);
    replace (q + i <? q + bufferSize) with true
      by (symmetry; apply Z.ltb_lt; lia);
    simpl; f_equal; lia.
Qed.

(** C3, the claim at a concrete input: with an allocator that returns no
    memory the two-argument factory does not fail, and with an allocator
    that would hand out the region at 5000 the buffer it makes sits at the
    source pointer 1000 itself, no region having been allocated. *)
Lemma Buffer_Make_from_allocates_counterexample :
  fst (Buffer_Make_from true 4 1000 (World_with [None] []))
    <> Throw bad_alloc /\
  exists b w',
    Buffer_Make_from true 4 1000 (World_with [Some 5000] []) = (Ok b, w') /\
    Buffer_GetRawMemPtr b = 1000 /\
    Buffer_GetRawMemPtr b <> 5000 /\
    host_live w' = [] /\
    host_driver w' = [Some 5000].
Proof.
  split.
  - simpl. discriminate.
  - do 2 eexists. split; [reflexivity |]. simpl.
    repeat split; try reflexivity. discriminate.
Qed.

(** C3, amended: [Buffer::Make(size, pCopyFrom)] builds a non-owning buffer
    of the given size whose raw pointer is [pCopyFrom] itself; it calls no
    allocator, copies nothing and never throws.  Allocating [size] bytes and
    copying [size] bytes from the source is what the three-argument
    constructor does when asked to own its memory, the source being
    readable and not overlapping the new region; and that one throws
    [bad_alloc] when the allocator returns no memory for a non-zero size. *)
Theorem Buffer_Make_from_wraps_source (track : bool) (size pCopyFrom : Z)
        (w : World) :
  (exists b w',
      Buffer_Make_from track size pCopyFrom w = (Ok b, w') /\
      Buffer_GetRawMemPtr b = pCopyFrom /\
      Buffer_GetRawMemSize b = size /\
      own_memory b = false /\
      host_allocator_untouched w w' /\
      host_valid w' = host_valid w /\
      host_mem w' = host_mem w) /\
  (forall q rest,
      0 < size -> 0 < q -> host_driver w = Some q :: rest ->
      accessible w pCopyFrom size = true ->
      disjoint q pCopyFrom size = true ->
      exists b w',
        Buffer_ctor_from track size pCopyFrom true w = (Ok b, w') /\
        Buffer_GetRawMemPtr b = q /\
        Buffer_GetRawMemSize b = size /\
        host_live w' = q :: host_live w /\
        host_valid w' = (q, size) :: host_valid w /\
        forall i, 0 <= i < size ->
                  host_mem w' (q + i) = host_mem w (pCopyFrom + i)) /\
  (size <> 0 -> cudaMallocHost_fails w ->
   exists w',
     Buffer_ctor_from track size pCopyFrom true w = (Throw bad_alloc, w')).
Proof.
  split; [| split].
  - unfold Buffer_Make_from, Buffer_ctor_from, Buffer_note,
      host_allocator_untouched.
    destruct track; simpl; do 2 eexists; repeat split; reflexivity.
  - intros q rest Hsize Hq Hdrv Hsrc Hdisj.
    destruct (Buffer_ctor_from_own_copies track size pCopyFrom w q rest
                                          Hsize Hq Hdrv Hsrc Hdisj)
      as (b & w' & Hrun & Hptr & Hsz & _ & Hlive & Hvalid & _ & Hmem).
    exists b, w'. repeat (split; [assumption |]). exact Hmem.
  - intros Hsize Hfail. unfold Buffer_ctor_from, bind. simpl.
    destruct (Buffer_Allocate_fails size w Hsize Hfail) as [w' ->].
    simpl. exists w'. reflexivity.
Qed.

Lemma Buffer_Make_from_wraps_source_witness :
  let w := mkWorld AllocRegister_init AllocRegister_init []
                   (fun a => a mod 256) [] [Some 5000] []
                   [(1000, 64)] [] in
  (exists b w',
      Buffer_Make_from true 4 1000 w = (Ok b, w') /\
      Buffer_GetRawMemPtr b = 1000 /\
      Buffer_GetRawMemSize b = 4 /\
      own_memory b = false /\
      host_allocator_untouched w w' /\
      host_valid w' = host_valid w /\
      host_mem w' = host_mem w) /\
  (0 < 4 /\ 0 < 5000 /\ accessible w 1000 4 = true /\
   disjoint 5000 1000 4 = true) /\
  (exists b w',
      Buffer_ctor_from true 4 1000 true w = (Ok b, w') /\
      Buffer_GetRawMemPtr b = 5000 /\
      Buffer_GetRawMemSize b = 4 /\
      host_live w' = 5000 :: host_live w /\
      host_valid w' = (5000, 4) :: host_valid w /\
      forall i, 0 <= i < 4 -> host_mem w' (5000 + i) = host_mem w (1000 + i)).
Proof.
  cbv zeta.
  destruct (Buffer_Make_from_wraps_source true 4 1000
              (mkWorld AllocRegister_init AllocRegister_init []
                       (fun a => a mod 256) [] [Some 5000] []
                       [(1000, 64)] []))
    as (Hmake & Hown & _).
  split; [exact Hmake |].
  assert (Hs : 0 < 4) by lia.
  assert (Hq : 0 < 5000) by lia.
  assert (Ha : accessible
                 (mkWorld AllocRegister_init AllocRegister_init []
                          (fun a => a mod 256) [] [Some 5000] []
                          [(1000, 64)] []) 1000 4 = true) by reflexivity.
  assert (Hd : disjoint 5000 1000 4 = true) by reflexivity.
  split; [repeat (split; [assumption |]); assumption |].
  exact (Hown 5000 [] Hs Hq eq_refl Ha Hd).
Defined.

(** ** The allocating plane constructor *)

(** The allocating constructor always returns, whatever the driver answers,
    and the plane it builds has the requested geometry. *)
Lemma SurfacePlane_ctor_geometry (track : bool)
      (newWidth newHeight newElemSize context : Z) (w : World) :
  exists p w',
    SurfacePlane_ctor track newWidth newHeight newElemSize context w
    = (Ok p, w') /\
    width p = newWidth /\ height p = newHeight /\
    elemSize p = newElemSize /\ ownMem p = true.
Proof.
  unfold SurfacePlane_ctor, SurfacePlane_Allocate, cuMemAllocPitch. simpl.
  destruct (dev_driver w) as [| [d np | g] rest];
    destruct track; simpl; do 2 eexists; repeat split; reflexivity.
Qed.

(** ** C2: the geometry of an NV12 surface *)

Lemma NV12_luma_height (H : Z) :
  0 <= H -> 3 * H < 2 ^ 32 -> Z.even H = true ->
  wrap32 (wrap32 (H * 3) / 2 * 2) / 3 = H.
Proof.
  intros H0 H3 Hev. apply Z.even_spec in Hev. destruct Hev as [k ->].
  rewrite (wrap32_small (2 * k * 3)) by lia.
  replace (2 * k * 3) with (3 * k * 2) by lia.
  rewrite Z.div_mul by lia.
  rewrite wrap32_small by lia.
  replace (3 * k * 2) with (2 * k * 3) by lia.
  apply Z.div_mul. lia.
Qed.

Lemma NV12_chroma_height (H : Z) :
  0 <= H -> 3 * H < 2 ^ 32 -> wrap32 (H * 3) / 2 / 3 = H / 2.
Proof.
  intros H0 H3. rewrite wrap32_small by lia.
  rewrite Z.div_div by lia. replace (2 * 3) with (3 * 2) by lia.
  rewrite <- Z.div_div by lia. rewrite Z.div_mul by lia. reflexivity.
Qed.





(** ** C6: plane numbers out of range *)

(** Case analysis on a plane number against the literal cases of a
    [switch]. *)
Ltac switch_cases i :=
  destruct i as [| [[?|?|] | [?|?|] |] | ?];
  simpl; try reflexivity; try lia; try congruence.

(** C6, the claim at a concrete input: for an NV12 surface [NumPlanes()] is
    1, and plane number 1 is answered by all five queries. *)
Lemma SurfaceNV12_plane_1_counterexample :
  exists s w',
    Surface_Make true NV12 640 480 7 (World_with [] [AllocPitchOk 4096 1024])
    = (Ok (Some s), w') /\
    NumPlanes s <= 1 /\
    Width s 1 = Ok 640 /\
    WidthInBytes s 1 = Ok 640 /\
    Height s 1 = Ok 240 /\
    Pitch s 1 = Ok 1024 /\
    PlanePtr s 1 = Ok 495616 /\
    Width s 1 <> Throw invalid_argument.
Proof.
  do 2 eexists. split; [reflexivity |].
  repeat split; try reflexivity; try discriminate.
Qed.

(** C6, amended: for the variants Y, YUV420, RGB and RGB_PLANAR every plane
    number greater than or equal to [NumPlanes()] makes each of [Width],
    [WidthInBytes], [Height], [Pitch] and [PlanePtr] throw
    [invalid_argument]; for NV12, whose [NumPlanes()] is 1, every plane
    number greater than or equal to 2 does. *)
Theorem plane_queries_out_of_range (s : Surface) (i : Z)
        (Hrange : NumPlanes s <= i)
        (Hchroma : forall plane, s = SurfaceNV12 plane -> i <> 1) :
  Width s i = Throw invalid_argument /\
  WidthInBytes s i = Throw invalid_argument /\
  Height s i = Throw invalid_argument /\
  Pitch s i = Throw invalid_argument /\
  PlanePtr s i = Throw invalid_argument.
Proof.
  destruct s as [p | p | py pu pv | p | p]; simpl in *.
  - unfold SurfaceY_Width, SurfaceY_WidthInBytes, SurfaceY_Height,
      SurfaceY_Pitch, SurfaceY_PlanePtr.
    apply Z.ltb_ge in Hrange. rewrite Hrange. repeat split.
  - specialize (Hchroma p eq_refl).
    unfold SurfaceNV12_NumPlanes in Hrange.
    unfold SurfaceNV12_Width, SurfaceNV12_WidthInBytes, SurfaceNV12_Height,
      SurfaceNV12_Pitch, SurfaceNV12_PlanePtr.
    switch_cases i; repeat split.
  - unfold SurfaceYUV420_NumPlanes in Hrange.
    unfold SurfaceYUV420_Width, SurfaceYUV420_WidthInBytes,
      SurfaceYUV420_Height, SurfaceYUV420_Pitch, SurfaceYUV420_PlanePtr.
    switch_cases i; repeat split.
  - unfold SurfaceRGB_Width, SurfaceRGB_WidthInBytes, SurfaceRGB_Height,
      SurfaceRGB_Pitch, SurfaceRGB_PlanePtr.
    apply Z.ltb_ge in Hrange. rewrite Hrange. repeat split.
  - unfold SurfaceRGBPlanar_Width, SurfaceRGBPlanar_WidthInBytes,
      SurfaceRGBPlanar_Height, SurfaceRGBPlanar_Pitch,
      SurfaceRGBPlanar_PlanePtr.
    apply Z.ltb_ge in Hrange. rewrite Hrange. repeat split.
Qed.

Lemma plane_queries_out_of_range_witness :
  let s := SurfaceNV12 (view_plane 640 720 1024 4096) in
  (NumPlanes s <= 2 /\ (forall plane, s = SurfaceNV12 plane -> 2 <> 1)) /\
  Width s 2 = Throw invalid_argument /\
  WidthInBytes s 2 = Throw invalid_argument /\
  Height s 2 = Throw invalid_argument /\
  Pitch s 2 = Throw invalid_argument /\
  PlanePtr s 2 = Throw invalid_argument.
Proof.
  cbv zeta.
  assert (Hr : NumPlanes (SurfaceNV12 (view_plane 640 720 1024 4096)) <= 2)
    by (simpl; unfold SurfaceNV12_NumPlanes; lia).
  assert (Hc : forall plane,
             SurfaceNV12 (view_plane 640 720 1024 4096) = SurfaceNV12 plane ->
             2 <> 1) by (intros; lia).
  split; [split; assumption |].
  exact (plane_queries_out_of_range _ 2 Hr Hc).
Defined.

(** ** C9: GetSurfacePlane *)

(** C9: for every variant, [GetSurfacePlane] returns the null pointer for a
    plane number greater than or equal to [NumPlanes()], where the geometry
    queries of the other variants throw, and for a plane number in range it
    returns the member plane of that number. *)
Theorem GetSurfacePlane_null_out_of_range (s : Surface) (i : Z) :
  (NumPlanes s <= i -> GetSurfacePlane s i = None) /\
  (0 <= i < NumPlanes s ->
   exists plane,
     GetSurfacePlane s i = Some plane /\
     nth_error (planes_of s) (Z.to_nat i) = Some plane).
Proof.
  split.
  - intros Hrange.
    destruct s as [p | p | py pu pv | p | p]; simpl in *;
      unfold SurfaceY_NumPlanes, SurfaceNV12_NumPlanes,
        SurfaceYUV420_NumPlanes, SurfaceRGB_NumPlanes,
        SurfaceRGBPlanar_NumPlanes in Hrange;
      unfold SurfaceY_GetSurfacePlane, SurfaceNV12_GetSurfacePlane,
        SurfaceYUV420_GetSurfacePlane, SurfaceRGB_GetSurfacePlane,
        SurfaceRGBPlanar_GetSurfacePlane;
      switch_cases i.
  - intros Hrange.
    destruct s as [p | p | py pu pv | p | p]; simpl in *;
      unfold SurfaceY_NumPlanes, SurfaceNV12_NumPlanes,
        SurfaceYUV420_NumPlanes, SurfaceRGB_NumPlanes,
        SurfaceRGBPlanar_NumPlanes in Hrange;
      unfold SurfaceY_GetSurfacePlane, SurfaceNV12_GetSurfacePlane,
        SurfaceYUV420_GetSurfacePlane, SurfaceRGB_GetSurfacePlane,
        SurfaceRGBPlanar_GetSurfacePlane;
      switch_cases i; eexists; split; reflexivity.
Qed.

Lemma GetSurfacePlane_null_out_of_range_witness :
  let s := SurfaceYUV420 (view_plane 640 480 1024 4096)
                         (view_plane 320 240 512 8192)
                         (view_plane 320 240 512 12288) in
  GetSurfacePlane s 3 = None /\
  GetSurfacePlane s 1 = Some (view_plane 320 240 512 8192).
Proof.
  cbv zeta. split.
  - apply (GetSurfacePlane_null_out_of_range
             (SurfaceYUV420 (view_plane 640 480 1024 4096)
                            (view_plane 320 240 512 8192)
                            (view_plane 320 240 512 12288)) 3).
    simpl. unfold SurfaceYUV420_NumPlanes. lia.
  - destruct (GetSurfacePlane_null_out_of_range
                (SurfaceYUV420 (view_plane 640 480 1024 4096)
                               (view_plane 320 240 512 8192)
                               (view_plane 320 240 512 12288)) 1)
      as [_ Hin].
    destruct Hin as (plane & Hget & Hnth).
    + simpl. unfold SurfaceYUV420_NumPlanes. lia.
    + rewrite Hget. simpl in Hnth. rewrite <- Hnth. reflexivity.
Defined.

(** ** C7: the bytes the logical planes report *)

(** No variant answers a plane number from 3 on. *)
Lemma plane_bytes_from_3 (s : Surface) (i : Z) :
  3 <= i -> plane_bytes s i = 0.
Proof.
  intros Hi. unfold plane_bytes, WidthInBytes.
  destruct s as [p | p | py pu pv | p | p];
    unfold SurfaceY_WidthInBytes, SurfaceNV12_WidthInBytes,
      SurfaceYUV420_WidthInBytes, SurfaceRGB_WidthInBytes,
      SurfaceRGBPlanar_WidthInBytes, SurfaceY_NumPlanes,
      SurfaceRGB_NumPlanes, SurfaceRGBPlanar_NumPlanes;
    switch_cases i.
Qed.

Lemma sum_plane_bytes_from_3 (s : Surface) (n : nat) :
  (3 <= n)%nat -> sum_plane_bytes s n = sum_plane_bytes s 3.
Proof.
  induction n as [| n IH]; intros Hn; [lia |].
  destruct (Nat.eq_dec n 2) as [-> | Hne]; [reflexivity |].
  change (sum_plane_bytes s (S n))
    with (sum_plane_bytes s n + plane_bytes s (Z.of_nat n)).
  rewrite IH by lia.
  rewrite plane_bytes_from_3 by lia. lia.
Qed.

Lemma div3_mul3 (z : Z) : z * 3 / 3 = z.
Proof. apply Z.div_mul. lia. Qed.

(** C7, the claim at a concrete input: a 2 x 2 RGB_PLANAR surface reports
    one logical plane of 2 bytes by 2 rows, 4 bytes, where the claim
    expects 12. *)
Lemma SurfaceRGBPlanar_bytes_counterexample :
  exists s w',
    Surface_Make true RGB_PLANAR 2 2 7 (World_with [] [AllocPitchOk 4096 512])
    = (Ok (Some s), w') /\
    sum_plane_bytes s (Z.to_nat (NumPlanes s)) = 4 /\
    sum_plane_bytes s 3 = 4 /\
    expected_bytes RGB_PLANAR 2 2 = 12.
Proof.
  do 2 eexists. split; [reflexivity |].
  repeat split; reflexivity.
Qed.

(** C7, amended: for every format of the family and every [W], [H] in the
    [uint32_t] range, with [3 * W] in range for RGB, [3 * H] in range for
    NV12 and RGB_PLANAR and [H] even for NV12, the sum over the logical
    planes of [WidthInBytes(i) * Height(i)] is: Y: W*H; NV12:
    W*H + W*(H/2); YUV420: W*H + 2*(W/2)*(H/2); RGB: 3*W*H;
    RGB_PLANAR: W*H. *)
Theorem surface_byte_count (track : bool) (format : Pixel_Format)
        (W H context : Z) (w : World) (n : nat)
        (HW : is_uint32 W) (HH : is_uint32 H)
        (Hrgb : format = RGB -> 3 * W < 2 ^ 32)
        (Hrows : format = NV12 \/ format = RGB_PLANAR -> 3 * H < 2 ^ 32)
        (Heven : format = NV12 -> Z.even H = true)
        (Hknown : format <> UNDEFINED)
        (Hn : (3 <= n)%nat) :
  exists s w',
    Surface_Make track format W H context w = (Ok (Some s), w') /\
    sum_plane_bytes s n =
      match format with
      | RGB_PLANAR => W * H
      | _ => expected_bytes format W H
      end.
Proof.
  unfold is_uint32 in HW, HH.
  destruct format; [congruence | | | | |];
    unfold Surface_Make, SurfaceY_ctor, SurfaceRGB_ctor, SurfaceNV12_ctor,
      SurfaceYUV420_ctor, SurfaceRGBPlanar_ctor, bind.
  - (* Y *)
    destruct (SurfacePlane_ctor_geometry track W H Surface_ElemSize context w)
      as (p & w' & -> & Hw & Hh & He & _).
    unfold ret. do 2 eexists. split; [reflexivity |].
    rewrite sum_plane_bytes_from_3 by exact Hn.
    unfold sum_plane_bytes, plane_bytes. cbn -[Z.mul Z.div Z.add wrap32].
    unfold SurfaceY_WidthInBytes, SurfaceY_Height, Plane_Width, Plane_Height,
      Plane_ElemSize. cbn -[Z.mul Z.div Z.add wrap32].
    rewrite Hw, Hh, He. unfold Surface_ElemSize.
    rewrite Z.mul_1_r, wrap32_small by lia. lia.
  - (* RGB *)
    destruct (SurfacePlane_ctor_geometry track (wrap32 (W * 3)) H
                                         Surface_ElemSize context w)
      as (p & w' & -> & Hw & Hh & He & _).
    unfold ret. do 2 eexists. split; [reflexivity |].
    rewrite sum_plane_bytes_from_3 by exact Hn.
    unfold sum_plane_bytes, plane_bytes. cbn -[Z.mul Z.div Z.add wrap32].
    unfold SurfaceRGB_WidthInBytes, SurfaceRGB_Height, Plane_Width,
      Plane_Height, Plane_ElemSize. cbn -[Z.mul Z.div Z.add wrap32].
    rewrite Hw, Hh, He. unfold Surface_ElemSize.
    specialize (Hrgb eq_refl).
    rewrite Z.mul_1_r, (wrap32_small (W * 3)) by lia.
    rewrite wrap32_small by lia. lia.
  - (* NV12 *)
    destruct (SurfacePlane_ctor_geometry track W (wrap32 (H * 3) / 2)
                                         Surface_ElemSize context w)
      as (p & w' & -> & Hw & Hh & He & _).
    unfold ret. do 2 eexists. split; [reflexivity |].
    rewrite sum_plane_bytes_from_3 by exact Hn.
    unfold sum_plane_bytes, plane_bytes. cbn -[Z.mul Z.div Z.add wrap32].
    unfold SurfaceNV12_WidthInBytes, SurfaceNV12_Height, Plane_Width,
      Plane_Height, Plane_ElemSize. cbn -[Z.mul Z.div Z.add wrap32].
    rewrite Hw, Hh, He. unfold Surface_ElemSize.
    assert (H3 : 3 * H < 2 ^ 32) by (apply Hrows; left; reflexivity).
    rewrite (NV12_luma_height H) by (try apply Heven; trivial; lia).
    rewrite (NV12_chroma_height H) by lia.
    rewrite Z.mul_1_r, wrap32_small by lia. lia.
  - (* YUV420 *)
    destruct (SurfacePlane_ctor_geometry track W H Surface_ElemSize context w)
      as (py & w1 & -> & Hwy & Hhy & Hey & _).
    destruct (SurfacePlane_ctor_geometry track (W / 2) (H / 2)
                                         Surface_ElemSize context w1)
      as (pu & w2 & -> & Hwu & Hhu & Heu & _).
    destruct (SurfacePlane_ctor_geometry track (W / 2) (H / 2)
                                         Surface_ElemSize context w2)
      as (pv & w3 & -> & Hwv & Hhv & Hev & _).
    unfold ret. do 2 eexists. split; [reflexivity |].
    rewrite sum_plane_bytes_from_3 by exact Hn.
    unfold sum_plane_bytes, plane_bytes. cbn -[Z.mul Z.div Z.add wrap32].
    unfold Plane_Width, Plane_Height, Plane_ElemSize.
    rewrite Hwy, Hhy, Hey, Hwu, Hhu, Heu, Hwv, Hhv, Hev.
    unfold Surface_ElemSize.
    assert (Hhalf : 0 <= W / 2 < 2 ^ 32).
    { split; [apply Z.div_pos; lia |].
      apply Z.div_lt_upper_bound; lia. }
    rewrite !Z.mul_1_r, (wrap32_small W), (wrap32_small (W / 2)) by lia.
    lia.
  - (* RGB_PLANAR *)
    destruct (SurfacePlane_ctor_geometry track W (wrap32 (H * 3))
                                         Surface_ElemSize context w)
      as (p & w' & -> & Hw & Hh & He & _).
    unfold ret. do 2 eexists. split; [reflexivity |].
    rewrite sum_plane_bytes_from_3 by exact Hn.
    unfold sum_plane_bytes, plane_bytes. cbn -[Z.mul Z.div Z.add wrap32].
    unfold SurfaceRGBPlanar_WidthInBytes, SurfaceRGBPlanar_Height,
      Plane_Width, Plane_Height, Plane_ElemSize. cbn -[Z.mul Z.div Z.add wrap32].
    rewrite Hw, Hh, He. unfold Surface_ElemSize.
    assert (H3 : 3 * H < 2 ^ 32) by (apply Hrows; right; reflexivity).
    rewrite (wrap32_small (H * 3)) by lia. rewrite div3_mul3.
    rewrite Z.mul_1_r, wrap32_small by lia. lia.
Qed.

Lemma surface_byte_count_witness :
  (is_uint32 640 /\ is_uint32 480 /\ Z.even 480 = true /\ (3 <= 3)%nat) /\
  exists s w',
    Surface_Make true NV12 640 480 7 (World_with [] [AllocPitchOk 4096 1024])
    = (Ok (Some s), w') /\
    sum_plane_bytes s 3 = 640 * 480 + 640 * (480 / 2).
Proof.
  assert (HW : is_uint32 640) by (unfold is_uint32; lia).
  assert (HH : is_uint32 480) by (unfold is_uint32; lia).
  assert (He : Z.even 480 = true) by reflexivity.
  assert (Hn : (3 <= 3)%nat) by lia.
  split; [repeat split; try assumption; try apply HW; apply HH |].
  apply (surface_byte_count true NV12 640 480 7
           (World_with [] [AllocPitchOk 4096 1024]) 3 HW HH).
  - intros E. discriminate E.
  - intros _. lia.
  - intros _. exact He.
  - intros E. discriminate E.
  - exact Hn.
Defined.

(** ** C4: copies, assignment and clones are views *)

(** One clone: the world is untouched, the clone is of the same class and
    each of its planes is a view of the plane it was copied from. *)
Lemma Clone_view (s : Surface) (w : World) :
  exists c,
    Clone s w = (Ok c, w) /\
    same_variant s c /\
    Forall2 view_of (planes_of c) (planes_of s).
Proof.
  destruct s as [p | p | py pu pv | p | p]; simpl;
    eexists; (split; [reflexivity |]); simpl; (split; [exact I |]);
    repeat constructor.
Qed.

(** Destroying a surface whose planes do not own anything has no effect. *)
Lemma Surface_dtor_views (track : bool) (c : Surface) (w : World) :
  Forall (fun p => ownMem p = false) (planes_of c) ->
  Surface_dtor track c w = (Ok tt, w).
Proof.
  intros Hviews.
  destruct c as [p | p | py pu pv | p | p]; simpl in *;
    unfold SurfacePlane_dtor, bind;
    repeat match goal with
           | H : Forall _ (_ :: _) |- _ => inversion H; subst; clear H
           end;
    repeat rewrite SurfacePlane_Deallocate_view by assumption;
    reflexivity.
Qed.

Lemma Forall2_view_of_not_owning (qs ps : list SurfacePlane) :
  Forall2 view_of qs ps -> Forall (fun p => ownMem p = false) qs.
Proof.
  induction 1 as [| q p qs ps Hq _ IH]; constructor.
  - destruct Hq as [Hq _]. exact Hq.
  - exact IH.
Qed.

(** [N] clones, by induction on [N]. *)
Lemma clones_views (track : bool) (s : Surface) (w : World) (N : nat) :
  exists cs,
    clones N s w = (Ok cs, w) /\
    length cs = N /\
    Forall (fun c => same_variant s c /\
                     Forall2 view_of (planes_of c) (planes_of s) /\
                     Surface_dtor track c w = (Ok tt, w)) cs.
Proof.
  induction N as [| N IH].
  - exists []. simpl. repeat split. constructor.
  - destruct IH as (cs & Hrun & Hlen & Hall).
    destruct (Clone_view s w) as (c & Hclone & Hsame & Hviews).
    exists (c :: cs). simpl. unfold bind. rewrite Hclone, Hrun.
    split; [reflexivity |]. split; [simpl; congruence |].
    constructor; [| exact Hall].
    split; [exact Hsame |]. split; [exact Hviews |].
    apply Surface_dtor_views.
    apply (Forall2_view_of_not_owning _ _ Hviews).
Qed.

(** C4: copy-constructing a device plane touches nothing and gives a view of
    the source; assigning to a plane gives a view of the right-hand side,
    calls no allocator, and frees the device memory of the left-hand side
    and deletes its note exactly when the left-hand side owned memory; and
    for every [N], after [N] clones of a surface the world, hence the live
    allocation count, is the one before, each clone being a surface of the
    same class whose planes are views and whose destruction frees nothing. *)
Theorem copies_and_clones_are_views (track : bool) (this other : SurfacePlane)
        (s : Surface) (w : World) (N : nat) :
  (exists q, SurfacePlane_copy other w = (Ok q, w) /\ view_of q other) /\
  (exists q w',
      SurfacePlane_assign track this other w = (Ok q, w') /\
      view_of q other /\
      dev_driver w' = dev_driver w /\
      dev_live w' = (if ownMem this
                     then remove_first (gpuMem this) (dev_live w)
                     else dev_live w) /\
      HWSurfaceRegister w' =
        (if ownMem this && track
         then DeleteNote (HWSurfaceRegister w)
                         (mkAllocInfo (plane_id this) (gpuMem this))
         else HWSurfaceRegister w) /\
      LiveCount w' <= LiveCount w) /\
  (exists cs w',
      clones N s w = (Ok cs, w') /\
      w' = w /\
      LiveCount w' = LiveCount w /\
      dev_live w' = dev_live w /\
      length cs = N /\
      Forall (fun c => same_variant s c /\
                       Forall2 view_of (planes_of c) (planes_of s) /\
                       Surface_dtor track c w' = (Ok tt, w')) cs).
Proof.
  split; [| split].
  - eexists. split; [reflexivity |]. unfold view_of. simpl. tauto.
  - unfold SurfacePlane_assign, SurfacePlane_Deallocate, OwnMemory, GpuMem,
      bind, call, ret, LiveCount.
    destruct (ownMem this); destruct track; simpl;
      do 2 eexists; (split; [reflexivity |]);
      (split; [apply view_of_assigned |]); simpl;
      repeat split; try reflexivity; try lia;
      apply GetSize_DeleteNote.
  - destruct (clones_views track s w N) as (cs & Hrun & Hlen & Hall).
    exists cs, w. repeat split; assumption.
Qed.

(** An allocated NV12 surface has one live allocation, and still one after
    three clones. *)
Example clones_of_allocated_NV12 :
  exists s w cs w',
    Surface_Make true NV12 640 480 7 (World_with [] [AllocPitchOk 4096 1024])
    = (Ok (Some s), w) /\
    LiveCount w = 1 /\
    dev_live w = [4096] /\
    clones 3 s w = (Ok cs, w') /\
    length cs = 3%nat /\
    LiveCount w' = 1 /\
    dev_live w' = [4096].
Proof.
  do 4 eexists.
  split; [reflexivity |]. split; [reflexivity |]. split; [reflexivity |].
  split; [reflexivity |]. repeat split; reflexivity.
Qed.

(** * Further properties *)

(** ** The allocation register *)

Lemma map_note_id_filter_subset (id0 : Z) (l : list AllocInfo) (x : Z) :
  In x (map note_id
            (filter (fun n => negb (AllocInfo_eqb n (mkAllocInfo id0 0))) l)) <->
  In x (map note_id l) /\ x <> id0.
Proof.
  unfold AllocInfo_eqb. simpl.
  induction l as [| n l IH]; simpl; [tauto |].
  destruct (note_id n =? id0) eqn:E; simpl.
  - apply Z.eqb_eq in E. rewrite IH. split.
    + intros [Hin Hne]. auto.
    + intros [[Heq | Hin] Hne]; [congruence | auto].
  - apply Z.eqb_neq in E. rewrite IH. split.
    + intros [Heq | [Hin Hne]]; [split; [auto | congruence] | auto].
    + intros [[Heq | Hin] Hne]; auto.
Qed.

Lemma NoDup_map_note_id_filter (f : AllocInfo -> bool) (l : list AllocInfo) :
  NoDup (map note_id l) -> NoDup (map note_id (filter f l)).
Proof.
  induction l as [| n l IH]; simpl; intros Hnd; [constructor |].
  inversion Hnd as [| x xs Hnotin Hnd']; subst.
  destruct (f n); simpl; [| auto].
  constructor; [| auto].
  intros Hin. apply Hnotin.
  apply in_map_iff in Hin. destruct Hin as (m & Hm & Hin).
  apply filter_In in Hin. destruct Hin as [Hin _].
  rewrite <- Hm. apply in_map. exact Hin.
Qed.

Lemma filter_absent_id (id0 : Z) (l : list AllocInfo) :
  ~ In id0 (map note_id l) ->
  filter (fun n => negb (AllocInfo_eqb n (mkAllocInfo id0 0))) l = l.
Proof.
  unfold AllocInfo_eqb. simpl.
  induction l as [| n l IH]; simpl; intros Hnotin; [reflexivity |].
  destruct (note_id n =? id0) eqn:E; simpl.
  - apply Z.eqb_eq in E. exfalso. apply Hnotin. left. exact E.
  - f_equal. apply IH. intros Hin. apply Hnotin. right. exact Hin.
Qed.

Lemma filter_present_id_length (id0 : Z) (l : list AllocInfo) :
  NoDup (map note_id l) ->
  In id0 (map note_id l) ->
  S (length (filter (fun n => negb (AllocInfo_eqb n (mkAllocInfo id0 0))) l))
  = length l.
Proof.
  induction l as [| n l IH]; simpl; intros Hnd Hin; [contradiction |].
  inversion Hnd as [| x xs Hnotin Hnd']; subst.
  unfold AllocInfo_eqb at 1. simpl.
  destruct (note_id n =? id0) eqn:E; simpl.
  - apply Z.eqb_eq in E. subst id0.
    rewrite filter_absent_id by exact Hnotin. reflexivity.
  - apply Z.eqb_neq in E. destruct Hin as [Heq | Hin]; [congruence |].
    f_equal. apply IH; assumption.
Qed.

(** X1: [AddNote] on a register that satisfies the invariant and whose
    counter does not wrap returns an identity no note had, adds exactly one
    note, which carries that identity and the given size at the end of the
    list, and keeps the invariant. *)
Theorem AddNote_fresh_id (reg : AllocRegister) (size : Z)
        (Hinv : reg_inv reg) (Hroom : ID_room 1 reg) :
  let id := fst (AddNote reg size) in
  let reg' := snd (AddNote reg size) in
  ~ has_note reg id /\
  instances reg' = instances reg ++ [mkAllocInfo id size] /\
  GetSize reg' = GetSize reg + 1 /\
  ID reg' = ID reg + 1 /\
  reg_inv reg'.
Proof.
  destruct Hinv as [Hnd Hall]. destruct Hroom as [Hlo Hhi].
  cbv zeta. unfold AddNote, has_note, GetSize, reg_inv. simpl.
  assert (Hfresh : ~ In (ID reg) (map note_id (instances reg))).
  { intros Hin. apply in_map_iff in Hin. destruct Hin as (n & Hn & Hin).
    rewrite Forall_forall in Hall. specialize (Hall n Hin). lia. }
  assert (Hwrap : wrap64 (ID reg + 1) = ID reg + 1).
  { unfold wrap64. apply Z.mod_small. lia. }
  split; [exact Hfresh |]. split; [reflexivity |].
  split; [rewrite length_app; simpl; lia |].
  split; [exact Hwrap |].
  rewrite Hwrap. split.
  - rewrite map_app. simpl. apply NoDup_app; [exact Hnd | |].
    + constructor; [intros [] | constructor].
    + intros a Hin [Heq | []]. subst a. exact (Hfresh Hin).
  - apply Forall_app. split.
    + rewrite Forall_forall in *. intros n Hin.
      specialize (Hall n Hin). lia.
    + constructor; [simpl; lia | constructor].
Qed.

Lemma AddNote_fresh_id_witness :
  let reg := mkAllocRegister [mkAllocInfo 0 64; mkAllocInfo 2 16] 3 in
  (reg_inv reg /\ ID_room 1 reg) /\
  fst (AddNote reg 32) = 3 /\
  ~ has_note reg 3 /\
  instances (snd (AddNote reg 32))
  = [mkAllocInfo 0 64; mkAllocInfo 2 16; mkAllocInfo 3 32] /\
  GetSize (snd (AddNote reg 32)) = 3.
Proof.
  cbv zeta.
  assert (Hinv : reg_inv (mkAllocRegister
                            [mkAllocInfo 0 64; mkAllocInfo 2 16] 3)).
  { split; simpl.
    - repeat constructor; simpl; intuition lia.
    - repeat constructor; simpl; lia. }
  assert (Hroom : ID_room 1 (mkAllocRegister
                               [mkAllocInfo 0 64; mkAllocInfo 2 16] 3))
    by (unfold ID_room; simpl; lia).
  split; [split; assumption |].
  destruct (AddNote_fresh_id _ 32 Hinv Hroom) as (Hf & Hi & Hs & _ & _).
  split; [reflexivity |]. split; [exact Hf |].
  split; [exact Hi | exact Hs].
Defined.

(** X2: [DeleteNote] compares identities and never sizes: whatever the size
    field of its argument, it removes every note with that identity and no
    other, so the register never grows, and it keeps the invariant. *)
Theorem DeleteNote_by_identity (reg : AllocRegister) (id size size' : Z) :
  DeleteNote reg (mkAllocInfo id size) = DeleteNote reg (mkAllocInfo id size') /\
  ~ has_note (DeleteNote reg (mkAllocInfo id size)) id /\
  (forall id', id' <> id ->
     (has_note (DeleteNote reg (mkAllocInfo id size)) id' <-> has_note reg id')) /\
  GetSize (DeleteNote reg (mkAllocInfo id size)) <= GetSize reg /\
  ID (DeleteNote reg (mkAllocInfo id size)) = ID reg /\
  (reg_inv reg -> reg_inv (DeleteNote reg (mkAllocInfo id size))).
Proof.
  split; [reflexivity |].
  unfold has_note. simpl.
  change (fun n => negb (AllocInfo_eqb n (mkAllocInfo id size)))
    with (fun n => negb (AllocInfo_eqb n (mkAllocInfo id 0))).
  split; [| split; [| split; [| split]]].
  - rewrite map_note_id_filter_subset. tauto.
  - intros id' Hne. rewrite map_note_id_filter_subset. tauto.
  - apply GetSize_DeleteNote.
  - reflexivity.
  - intros [Hnd Hall]. split; simpl.
    + apply NoDup_map_note_id_filter. exact Hnd.
    + rewrite Forall_forall in *. intros n Hin.
      apply filter_In in Hin. destruct Hin as [Hin _]. auto.
Qed.

Lemma DeleteNote_by_identity_witness :
  let reg := mkAllocRegister [mkAllocInfo 0 64; mkAllocInfo 2 16] 3 in
  reg_inv reg /\
  instances (DeleteNote reg (mkAllocInfo 2 999)) = [mkAllocInfo 0 64] /\
  reg_inv (DeleteNote reg (mkAllocInfo 2 999)).
Proof.
  cbv zeta.
  assert (Hinv : reg_inv (mkAllocRegister
                            [mkAllocInfo 0 64; mkAllocInfo 2 16] 3)).
  { split; simpl.
    - repeat constructor; simpl; intuition lia.
    - repeat constructor; simpl; lia. }
  split; [exact Hinv |]. split; [reflexivity |].
  destruct (DeleteNote_by_identity
              (mkAllocRegister [mkAllocInfo 0 64; mkAllocInfo 2 16] 3)
              2 999 16) as (_ & _ & _ & _ & _ & Hkeep).
  exact (Hkeep Hinv).
Defined.

Lemma instances_DeleteNote_AddNote (reg : AllocRegister) (size size' : Z) :
  Forall (fun n => 0 <= note_id n < ID reg) (instances reg) ->
  instances (DeleteNote (snd (AddNote reg size))
                        (mkAllocInfo (ID reg) size'))
  = instances reg.
Proof.
  intros Hall. unfold DeleteNote, AddNote. simpl.
  rewrite filter_app. simpl. unfold AllocInfo_eqb at 2. simpl.
  rewrite Z.eqb_refl. simpl. rewrite app_nil_r.
  apply (filter_absent_id (ID reg)).
  intros Hin. apply in_map_iff in Hin. destruct Hin as (n & Hn & Hin).
  rewrite Forall_forall in Hall. specialize (Hall n Hin). lia.
Qed.

(** X3: on a register that satisfies the invariant, adding a note and then
    deleting the identity that [AddNote] returned, with whatever size, gives
    back the list of notes there was. *)
Theorem AddNote_DeleteNote_round_trip (reg : AllocRegister) (size size' : Z)
        (Hinv : reg_inv reg) :
  instances (DeleteNote (snd (AddNote reg size))
                        (mkAllocInfo (fst (AddNote reg size)) size'))
  = instances reg /\
  GetSize (DeleteNote (snd (AddNote reg size))
                      (mkAllocInfo (fst (AddNote reg size)) size'))
  = GetSize reg.
Proof.
  destruct Hinv as [_ Hall].
  assert (E := instances_DeleteNote_AddNote reg size size' Hall).
  change (fst (AddNote reg size)) with (ID reg).
  split; [exact E |]. unfold GetSize. rewrite E. reflexivity.
Qed.

Lemma AddNote_DeleteNote_round_trip_witness :
  let reg := mkAllocRegister [mkAllocInfo 0 64; mkAllocInfo 2 16] 3 in
  reg_inv reg /\
  instances (DeleteNote (snd (AddNote reg 32))
                        (mkAllocInfo (fst (AddNote reg 32)) 48))
  = instances reg.
Proof.
  cbv zeta.
  assert (Hinv : reg_inv (mkAllocRegister
                            [mkAllocInfo 0 64; mkAllocInfo 2 16] 3)).
  { split; simpl.
    - repeat constructor; simpl; intuition lia.
    - repeat constructor; simpl; lia. }
  split; [exact Hinv |].
  exact (proj1 (AddNote_DeleteNote_round_trip _ 32 48 Hinv)).
Defined.

(** X4: on a register that satisfies the invariant, deleting the identity of
    a note that is there makes the register exactly one note smaller, and
    deleting an identity that is not there leaves the notes as they are. *)
Theorem DeleteNote_exactly_one (reg : AllocRegister) (id size : Z)
        (Hinv : reg_inv reg) :
  (has_note reg id ->
   GetSize (DeleteNote reg (mkAllocInfo id size)) = GetSize reg - 1) /\
  (~ has_note reg id ->
   instances (DeleteNote reg (mkAllocInfo id size)) = instances reg).
Proof.
  destruct Hinv as [Hnd _]. unfold has_note, GetSize. simpl.
  change (fun n => negb (AllocInfo_eqb n (mkAllocInfo id size)))
    with (fun n => negb (AllocInfo_eqb n (mkAllocInfo id 0))).
  split.
  - intros Hin.
    rewrite <- (filter_present_id_length id (instances reg) Hnd Hin). lia.
  - intros Hnotin. apply filter_absent_id. exact Hnotin.
Qed.

Lemma DeleteNote_exactly_one_witness :
  let reg := mkAllocRegister [mkAllocInfo 0 64; mkAllocInfo 2 16] 3 in
  reg_inv reg /\
  GetSize (DeleteNote reg (mkAllocInfo 2 16)) = GetSize reg - 1 /\
  instances (DeleteNote reg (mkAllocInfo 1 16)) = instances reg.
Proof.
  cbv zeta.
  assert (Hinv : reg_inv (mkAllocRegister
                            [mkAllocInfo 0 64; mkAllocInfo 2 16] 3)).
  { split; simpl.
    - repeat constructor; simpl; intuition lia.
    - repeat constructor; simpl; lia. }
  split; [exact Hinv |]. split.
  - apply (DeleteNote_exactly_one _ 2 16 Hinv).
    unfold has_note. simpl. auto.
  - apply (DeleteNote_exactly_one _ 1 16 Hinv).
    unfold has_note. simpl. intuition lia.
Defined.

(** ** The leak check *)

Lemma GetNoteByIndex_in_range (reg : AllocRegister) (k : nat) :
  (k < length (instances reg))%nat ->
  GetNoteByIndex reg (Z.of_nat k) = nth_error (instances reg) k.
Proof.
  intros Hk. unfold GetNoteByIndex, GetSize.
  replace (Z.of_nat k <? Z.of_nat (length (instances reg))) with true
    by (symmetry; apply Z.ltb_lt; lia).
  rewrite Nat2Z.id. reflexivity.
Qed.

(** The loop prints the notes from index [k] on, in the order of the
    register, and never meets a null note. *)
Lemma print_leaked_from (reg : AllocRegister) (remaining k : nat) :
  (k + remaining = length (instances reg))%nat ->
  print_leaked reg (Z.of_nat k) remaining
  = Some (map (fun n => LeakedNote (note_id n) (note_size n))
              (skipn k (instances reg))).
Proof.
  revert k. induction remaining as [| r IH]; intros k Hlen.
  - simpl. rewrite skipn_all2 by lia. reflexivity.
  - simpl. rewrite GetNoteByIndex_in_range by lia.
    destruct (nth_error (instances reg) k) as [n |] eqn:En.
    + replace (Z.of_nat k + 1) with (Z.of_nat (S k)) by lia.
      rewrite IH by lia.
      assert (Hsplit : skipn k (instances reg)
                       = n :: skipn (S k) (instances reg)).
      { clear - En. revert k En.
        induction (instances reg) as [| m l IHl]; intros [| k] En;
          simpl in *; try discriminate.
        - inversion En. reflexivity.
        - apply IHl. exact En. }
      rewrite Hsplit. reflexivity.
    + apply nth_error_None in En. lia.
Qed.

Lemma report_leaks_all (header : cerr_line) (reg : AllocRegister) :
  report_leaks header reg
  = Some (match instances reg with
          | [] => []
          | _ :: _ =>
              header :: map (fun n => LeakedNote (note_id n) (note_size n))
                            (instances reg)
          end).
Proof.
  unfold report_leaks.
  destruct (instances reg) as [| n l] eqn:E.
  - unfold GetSize. rewrite E. reflexivity.
  - assert (Hsize : (GetSize reg =? 0) = false).
    { apply Z.eqb_neq. unfold GetSize. rewrite E. simpl. lia. }
    rewrite Hsize. simpl negb. cbv iota.
    unfold GetSize. rewrite Nat2Z.id.
    change (print_leaked reg 0) with (print_leaked reg (Z.of_nat 0)).
    rewrite (print_leaked_from reg (length (instances reg)) 0 eq_refl).
    simpl skipn. rewrite E. reflexivity.
Qed.

(** X5: [CheckAllocationCounters] never dereferences a null note; it answers
    [true] exactly when both registers are empty, and then writes nothing;
    otherwise it writes, for each register that is not empty, its header
    and then every note of the register, in order, with its identity and
    size. *)
Theorem CheckAllocationCounters_reports_leaks (w : World) :
  exists answer out,
    CheckAllocationCounters w = Some (answer, out) /\
    (answer = true <->
     instances (BuffersRegister w) = [] /\
     instances (HWSurfaceRegister w) = []) /\
    (answer = true <-> out = []) /\
    out =
      (match instances (BuffersRegister w) with
       | [] => []
       | _ :: _ =>
           LeakedBuffersHeader
             :: map (fun n => LeakedNote (note_id n) (note_size n))
                    (instances (BuffersRegister w))
       end)
      ++
      (match instances (HWSurfaceRegister w) with
       | [] => []
       | _ :: _ =>
           LeakedSurfacesHeader
             :: map (fun n => LeakedNote (note_id n) (note_size n))
                    (instances (HWSurfaceRegister w))
       end).
Proof.
  unfold CheckAllocationCounters. rewrite !report_leaks_all.
  do 2 eexists. split; [reflexivity |].
  unfold GetSize.
  destruct (instances (BuffersRegister w)) as [| b bs];
    destruct (instances (HWSurfaceRegister w)) as [| h hs]; simpl;
    repeat split; intros; try reflexivity; try discriminate;
    try tauto;
    match goal with
    | H : _ /\ _ |- _ => destruct H; discriminate
    | _ => idtac
    end.
Qed.

(** ** The life of a host buffer *)

Lemma remove_first_head (p : Z) (l : list Z) : remove_first p (p :: l) = l.
Proof. simpl. rewrite Z.eqb_refl. reflexivity. Qed.

Lemma remove_first_absent (p : Z) (l : list Z) :
  ~ In p l -> remove_first p l = l.
Proof.
  induction l as [| q l IH]; simpl; intros Hnotin; [reflexivity |].
  destruct (q =? p) eqn:E.
  - apply Z.eqb_eq in E. exfalso. apply Hnotin. left. exact E.
  - f_equal. apply IH. intros Hin. apply Hnotin. right. exact Hin.
Qed.

(** What the destructor of a buffer does to the world. *)
Lemma Buffer_dtor_effect (track : bool) (b : Buffer) (w : World) :
  exists w',
    Buffer_dtor track b w = (Ok tt, w') /\
    host_live w' = (if own_memory b
                    then remove_first (pRawData b) (host_live w)
                    else host_live w) /\
    BuffersRegister w' =
      (if track
       then DeleteNote (BuffersRegister w)
                       (mkAllocInfo (buffer_id b) (mem_size b))
       else BuffersRegister w) /\
    host_driver w' = host_driver w /\
    host_mem w' = host_mem w /\
    HWSurfaceRegister w' = HWSurfaceRegister w /\
    dev_live w' = dev_live w.
Proof.
  unfold Buffer_dtor, Buffer_Deallocate, bind, call, ret.
  destruct (own_memory b); destruct track; simpl;
    eexists; repeat split; reflexivity.
Qed.

(** X6: an owning buffer of non-zero size whose allocation succeeds holds
    the region the allocator gave, which is then live, and has one note
    when tracking is on; destroying it frees that region and deletes the
    note, so that the live regions and the notes of the buffers register
    are those before the construction.  The device side is never touched. *)
Theorem Buffer_own_lifecycle (track : bool) (size : Z) (w : World)
        (q : Z) (rest : list (option Z))
        (Hsize : size <> 0) (Hq : q <> nullptr)
        (Hdrv : host_driver w = Some q :: rest)
        (Hinv : reg_inv (BuffersRegister w)) :
  exists b w1 w2,
    Buffer_MakeOwnMem track size w = (Ok b, w1) /\
    Buffer_GetRawMemPtr b = q /\
    Buffer_GetRawMemSize b = size /\
    host_live w1 = q :: host_live w /\
    GetSize (BuffersRegister w1)
    = GetSize (BuffersRegister w) + (if track then 1 else 0) /\
    Buffer_dtor track b w1 = (Ok tt, w2) /\
    host_live w2 = host_live w /\
    instances (BuffersRegister w2) = instances (BuffersRegister w) /\
    HWSurfaceRegister w2 = HWSurfaceRegister w /\
    dev_live w2 = dev_live w.
Proof.
  destruct Hinv as [_ Hall].
  unfold Buffer_MakeOwnMem, Buffer_ctor, bind, Buffer_Allocate,
    Buffer_GetRawMemSize, cudaMallocHost, Buffer_note.
  simpl. apply Z.eqb_neq in Hsize. rewrite Hsize. simpl.
  rewrite Hdrv. simpl. apply Z.eqb_neq in Hq. rewrite Hq. simpl.
  destruct track; unfold ret; simpl.
  - match goal with
    | |- exists b w1 w2, (Ok ?b0, ?w0) = _ /\ _ =>
        destruct (Buffer_dtor_effect true b0 w0)
          as (w2 & Hrun & Hlive & Hreg & _ & _ & Hhw & Hdev);
        exists b0, w0, w2
    end.
    simpl in *. rewrite Z.eqb_refl in Hlive.
    repeat split; try assumption; try reflexivity.
    + unfold GetSize. simpl. rewrite length_app. simpl. lia.
    + rewrite Hreg.
      apply (instances_DeleteNote_AddNote (BuffersRegister w) size size Hall).
  - match goal with
    | |- exists b w1 w2, (Ok ?b0, ?w0) = _ /\ _ =>
        destruct (Buffer_dtor_effect false b0 w0)
          as (w2 & Hrun & Hlive & Hreg & _ & _ & Hhw & Hdev);
        exists b0, w0, w2
    end.
    simpl in *. rewrite Z.eqb_refl in Hlive.
    repeat split; try assumption; try reflexivity; try lia.
    rewrite Hreg. reflexivity.
Qed.

Lemma Buffer_own_lifecycle_witness :
  let w := World_with [Some 5000] [] in
  (64 <> 0 /\ 5000 <> nullptr /\ host_driver w = [Some 5000] /\
   reg_inv (BuffersRegister w)) /\
  exists b w1 w2,
    Buffer_MakeOwnMem true 64 w = (Ok b, w1) /\
    Buffer_GetRawMemPtr b = 5000 /\
    host_live w1 = [5000] /\
    Buffer_dtor true b w1 = (Ok tt, w2) /\
    host_live w2 = [] /\
    instances (BuffersRegister w2) = [].
Proof.
  cbv zeta.
  assert (Hs : 64 <> 0) by lia.
  assert (Hq : 5000 <> nullptr) by (unfold nullptr; lia).
  assert (Hd : host_driver (World_with [Some 5000] []) = Some 5000 :: [])
    by reflexivity.
  assert (Hi : reg_inv (BuffersRegister (World_with [Some 5000] [])))
    by (split; simpl; constructor).
  split; [repeat (split; [assumption |]); assumption |].
  destruct (Buffer_own_lifecycle true 64 _ 5000 [] Hs Hq Hd Hi)
    as (b & w1 & w2 & Hmk & Hptr & _ & Hl1 & _ & Hdt & Hl2 & Hr2 & _).
  exists b, w1, w2. repeat split; assumption.
Defined.

(** The owning constructor with a successful allocation, field by field. *)
Lemma Buffer_ctor_own_effect (track : bool) (size : Z) (w : World)
      (q : Z) (rest : list (option Z)) :
  size <> 0 -> q <> nullptr -> host_driver w = Some q :: rest ->
  exists w1,
    Buffer_ctor track size true w
    = (Ok (mkBuffer size true q
                    (if track then ID (BuffersRegister w) else 0)), w1) /\
    host_live w1 = q :: host_live w /\
    host_driver w1 = rest /\
    BuffersRegister w1 =
      (if track then snd (AddNote (BuffersRegister w) size)
       else BuffersRegister w) /\
    HWSurfaceRegister w1 = HWSurfaceRegister w /\
    dev_live w1 = dev_live w /\
    host_valid w1 = (q, size) :: host_valid w.
Proof.
  intros Hsize Hq Hdrv.
  unfold Buffer_ctor, bind, Buffer_Allocate, Buffer_GetRawMemSize,
    cudaMallocHost, Buffer_note.
  simpl. apply Z.eqb_neq in Hsize. rewrite Hsize. simpl.
  rewrite Hdrv. simpl. apply Z.eqb_neq in Hq. rewrite Hq. simpl.
  destruct track; unfold ret; simpl; eexists; repeat split; reflexivity.
Qed.

(** Whether a range is accessible depends on the accessible regions only. *)
Lemma accessible_same_regions (w w' : World) (a n : Z) :
  host_valid w' = host_valid w -> accessible w' a n = accessible w a n.
Proof. intros E. unfold accessible. rewrite E. reflexivity. Qed.

(** [Update] on an owning buffer with a successful allocation and, when
    there is a source, a source that can still be read once the old region
    is freed and that does not overlap the new region. *)
Lemma Buffer_Update_own_effect (b : Buffer) (newSize newPtr : Z) (w : World)
      (q : Z) (rest : list (option Z)) :
  own_memory b = true -> 0 < newSize -> 0 < q ->
  host_driver w = Some q :: rest ->
  (newPtr <> nullptr ->
   accessible (cudaFreeHost (pRawData b) w) newPtr newSize = true /\
   disjoint q newPtr newSize = true) ->
  exists w',
    Buffer_Update b newSize newPtr w
    = (Ok (mkBuffer newSize true q (buffer_id b)), w') /\
    host_live w' = q :: remove_first (pRawData b) (host_live w) /\
    host_driver w' = rest /\
    BuffersRegister w' = BuffersRegister w /\
    HWSurfaceRegister w' = HWSurfaceRegister w /\
    dev_live w' = dev_live w /\
    host_valid w'
    = (q, newSize) :: host_valid (cudaFreeHost (pRawData b) w) /\
    host_mem w' =
      (if negb (newPtr =? nullptr)
       then (fun a => if (q <=? a) && (a <? q + newSize)
                      then host_mem w (newPtr + (a - q))
                      else host_mem w a)
       else host_mem w).
Proof.
  intros Hown Hsize Hq Hdrv Hsrc.
  unfold Buffer_Update, Buffer_Deallocate, bind, call, ret.
  rewrite Hown. simpl. rewrite Hown.
  unfold Buffer_Allocate, Buffer_GetRawMemSize, cudaMallocHost. simpl.
  replace (newSize =? 0) with false by (symmetry; apply Z.eqb_neq; lia).
  simpl. rewrite Hdrv. simpl.
  unfold Buffer_set_pRawData, Buffer_set_mem_size, Buffer_GetRawMemPtr.
  simpl. rewrite Hown.
  destruct (newPtr =? nullptr) eqn:E; simpl.
  - eexists. split; [reflexivity |]. repeat split; reflexivity.
  - apply Z.eqb_neq in E. destruct (Hsrc E) as [Hacc Hdisj].
    match goal with
    | |- context [memcpy q newPtr newSize ?v] => set (w1 := v)
    end.
    assert (Hvalid1 : host_valid w1
                      = (q, newSize)
                          :: host_valid (cudaFreeHost (pRawData b) w))
      by reflexivity.
    rewrite (memcpy_defined q newPtr newSize w1 Hsize
               (accessible_new_region w1 q newSize _ Hq ltac:(lia) Hvalid1)
               (accessible_older_region _ w1 _ _ _ Hvalid1 Hacc) Hdisj).
    eexists. split; [reflexivity |]. repeat split; reflexivity.
Qed.

(** X7: [Update(newSize, newPtr)] on an owning buffer, with a positive size
    and an allocator that gives the region [q]; when [newPtr] is not null,
    the [newSize] bytes at [newPtr] can still be read once the old region
    of the buffer is freed, and do not overlap the new region.  Then the
    old region is freed, a region of [newSize] bytes is made accessible at
    [q], the buffer holds [q] with the new size, and no register is
    touched; when [newPtr] is not null the [newSize] bytes at [newPtr] are
    in the new region and every byte outside it is as before, and when
    [newPtr] is null host memory is not written at all. *)
Theorem Buffer_Update_own_reallocates (b : Buffer) (newSize newPtr : Z)
        (w : World) (q : Z) (rest : list (option Z))
        (Hown : own_memory b = true) (Hsize : 0 < newSize)
        (Hq : 0 < q)
        (Hdrv : host_driver w = Some q :: rest)
        (Hsrc : newPtr <> nullptr ->
                accessible (cudaFreeHost (pRawData b) w) newPtr newSize
                = true /\
                disjoint q newPtr newSize = true) :
  exists b' w',
    Buffer_Update b newSize newPtr w = (Ok b', w') /\
    Buffer_GetRawMemPtr b' = q /\
    Buffer_GetRawMemSize b' = newSize /\
    own_memory b' = true /\
    host_live w' = q :: remove_first (pRawData b) (host_live w) /\
    host_valid w'
    = (q, newSize) :: host_valid (cudaFreeHost (pRawData b) w) /\
    BuffersRegister w' = BuffersRegister w /\
    HWSurfaceRegister w' = HWSurfaceRegister w /\
    (newPtr <> nullptr ->
     (forall i, 0 <= i < newSize ->
                host_mem w' (q + i) = host_mem w (newPtr + i)) /\
     (forall a, a < q \/ q + newSize <= a -> host_mem w' a = host_mem w a)) /\
    (newPtr = nullptr -> host_mem w' = host_mem w).
Proof.
  destruct (Buffer_Update_own_effect b newSize newPtr w q rest
                                     Hown Hsize Hq Hdrv Hsrc)
    as (w' & Hrun & Hlive & _ & Hreg & Hhw & _ & Hvalid & Hmem).
  eexists. exists w'. split; [exact Hrun |]. simpl.
  repeat (split; [first [assumption | reflexivity] |]).
  split.
  - intros Hnn. apply Z.eqb_neq in Hnn. rewrite Hmem, Hnn. simpl. split.
    + intros i Hi.
      replace (q <=? q + i) with true by (symmetry; apply Z.leb_le; lia).
      replace (q + i <? q + newSize) with true
        by (symmetry; apply Z.ltb_lt; lia).
      simpl. f_equal. lia.
    + intros a [Ha | Ha].
      * replace (q <=? a) with false by (symmetry; apply Z.leb_gt; lia).
        reflexivity.
      * replace (a <? q + newSize) with false
          by (symmetry; apply Z.ltb_ge; lia).
        rewrite andb_false_r. reflexivity.
  - intros Hnull. rewrite Hmem. subst newPtr. reflexivity.
Qed.

Lemma Buffer_Update_own_reallocates_witness :
  let b := mkBuffer 16 true 5000 0 in
  let w := mkWorld AllocRegister_init AllocRegister_init [5000]
                   (fun a => a mod 256) [] [Some 6000] []
                   [(5000, 16); (1000, 64)] [] in
  (own_memory b = true /\ 0 < 4 /\ 0 < 6000 /\
   host_driver w = [Some 6000] /\
   accessible (cudaFreeHost (pRawData b) w) 1000 4 = true /\
   disjoint 6000 1000 4 = true) /\
  exists b' w',
    Buffer_Update b 4 1000 w = (Ok b', w') /\
    Buffer_GetRawMemPtr b' = 6000 /\
    Buffer_GetRawMemSize b' = 4 /\
    host_live w' = [6000] /\
    host_valid w' = [(6000, 4); (1000, 64)] /\
    host_mem w' 6001 = 1001 mod 256.
Proof.
  cbv zeta.
  set (w := mkWorld AllocRegister_init AllocRegister_init [5000]
                    (fun a => a mod 256) [] [Some 6000] []
                    [(5000, 16); (1000, 64)] []).
  assert (Ho : own_memory (mkBuffer 16 true 5000 0) = true) by reflexivity.
  assert (Hs : 0 < 4) by lia.
  assert (Hq : 0 < 6000) by lia.
  assert (Hd : host_driver w = Some 6000 :: []) by reflexivity.
  assert (Ha : accessible (cudaFreeHost (pRawData (mkBuffer 16 true 5000 0))
                                        w) 1000 4 = true) by reflexivity.
  assert (Hj : disjoint 6000 1000 4 = true) by reflexivity.
  split; [repeat (split; [assumption |]); assumption |].
  destruct (Buffer_Update_own_reallocates _ 4 1000 w 6000 [] Ho Hs Hq Hd
              (fun _ => conj Ha Hj))
    as (b' & w' & Hrun & Hptr & Hsz & _ & Hlive & Hvalid & _ & _ & Hcopy & _).
  exists b', w'. repeat (split; [assumption |]).
  assert (Hnn : 1000 <> nullptr) by (unfold nullptr; lia).
  destruct (Hcopy Hnn) as [Hbytes _].
  exact (Hbytes 1 ltac:(lia)).
Defined.

(** X8: [Update(newSize, nullptr)], which copies nothing, never throws and
    never touches a register, the device side or host memory, whatever the
    buffer and whatever the allocator answers; the buffer keeps its
    ownership flag and reports the new size.  In particular, on an owning
    buffer whose reallocation returns no memory, where the constructor
    throws, [Update] returns with a null raw pointer and still reports the
    new size. *)
Theorem Buffer_Update_never_throws (b : Buffer) (newSize : Z) (w : World) :
  exists b' w',
    Buffer_Update b newSize nullptr w = (Ok b', w') /\
    Buffer_GetRawMemSize b' = newSize /\
    own_memory b' = own_memory b /\
    buffer_id b' = buffer_id b /\
    BuffersRegister w' = BuffersRegister w /\
    HWSurfaceRegister w' = HWSurfaceRegister w /\
    dev_live w' = dev_live w /\
    host_mem w' = host_mem w /\
    (own_memory b = true -> cudaMallocHost_fails w ->
     Buffer_GetRawMemPtr b' = nullptr).
Proof.
  unfold Buffer_Update, Buffer_Deallocate, bind, call, ret.
  destruct (own_memory b) eqn:Hown; simpl; rewrite ?Hown.
  - unfold Buffer_Allocate, Buffer_GetRawMemSize. simpl.
    destruct (newSize =? 0) eqn:Hsize; simpl.
    + do 2 eexists. split; [reflexivity |]. simpl.
      repeat split; try reflexivity; auto.
    + destruct (cudaMallocHost nullptr newSize
                               (cudaFreeHost (pRawData b) w))
        as [p w1] eqn:Ealloc.
      assert (Hframe : BuffersRegister w1 = BuffersRegister w /\
                       HWSurfaceRegister w1 = HWSurfaceRegister w /\
                       dev_live w1 = dev_live w /\
                       host_mem w1 = host_mem w).
      { unfold cudaMallocHost, cudaFreeHost in Ealloc. simpl in Ealloc.
        destruct (host_driver w) as [| [p' |] rest];
          inversion Ealloc; subst; simpl; auto. }
      assert (Hnull : cudaMallocHost_fails w -> p = nullptr).
      { intros Hfail. specialize (Hfail newSize).
        unfold cudaMallocHost, cudaFreeHost in *. simpl in *.
        destruct (host_driver w) as [| [p' |] rest];
          inversion Ealloc; subst; simpl in *; auto. }
      destruct Hframe as (Hb & Hh & Hd & Hm).
      do 2 eexists. split; [reflexivity |]. simpl.
      repeat split; auto.
  - do 2 eexists. split; [reflexivity |]. simpl.
    repeat split; auto; discriminate.
Qed.

Lemma Buffer_Update_never_throws_witness :
  let b := mkBuffer 16 true 5000 0 in
  let w := mkWorld AllocRegister_init AllocRegister_init [5000]
                   (fun a => a mod 256) [] [None] []
                   [(5000, 16)] [] in
  (own_memory b = true /\ cudaMallocHost_fails w) /\
  exists b' w',
    Buffer_Update b 32 nullptr w = (Ok b', w') /\
    Buffer_GetRawMemSize b' = 32 /\
    Buffer_GetRawMemPtr b' = nullptr.
Proof.
  cbv zeta.
  assert (Ho : own_memory (mkBuffer 16 true 5000 0) = true) by reflexivity.
  assert (Hf : cudaMallocHost_fails
                 (mkWorld AllocRegister_init AllocRegister_init [5000]
                          (fun a => a mod 256) [] [None] []
                   [(5000, 16)] []))
    by (intros size; reflexivity).
  split; [split; assumption |].
  destruct (Buffer_Update_never_throws (mkBuffer 16 true 5000 0) 32
              (mkWorld AllocRegister_init AllocRegister_init [5000]
                       (fun a => a mod 256) [] [None] []
                   [(5000, 16)] []))
    as (b' & w' & Hrun & Hsz & _ & _ & _ & _ & _ & _ & Hnull).
  exists b', w'. split; [exact Hrun |]. split; [exact Hsz |].
  exact (Hnull Ho Hf).
Defined.

(** Freeing the region that was allocated last gives back the accessible
    regions there were before the allocation. *)
Lemma host_valid_free_last (w w1 : World) (q size : Z) :
  host_live w1 = q :: host_live w ->
  host_valid w1 = (q, size) :: host_valid w ->
  host_valid (cudaFreeHost q w1) = host_valid w.
Proof.
  intros Hlive Hvalid. unfold cudaFreeHost. simpl.
  rewrite Hlive, Hvalid. simpl. rewrite Z.eqb_refl. reflexivity.
Qed.

(** The accessible regions after the destructor of a buffer. *)
Lemma Buffer_dtor_host_valid (track : bool) (b : Buffer) (w w' : World) :
  Buffer_dtor track b w = (Ok tt, w') ->
  host_valid w' = (if own_memory b
                   then host_valid (cudaFreeHost (pRawData b) w)
                   else host_valid w).
Proof.
  unfold Buffer_dtor, Buffer_Deallocate, bind, call, ret.
  destruct (own_memory b); destruct track; simpl;
    intros Heq; inversion Heq; reflexivity.
Qed.

(** X9: an owning buffer that is made, resized with [Update], and destroyed,
    the source of the resize, when there is one, being readable memory of
    the caller that does not overlap the second region.
    After the resize the first region is freed and only the second is live,
    accessible with the new size; with tracking on, the register still
    holds the one note made by the constructor, with the size of the
    construction although the buffer now reports the new size; and the
    destructor, which passes the new size to [DeleteNote], still deletes
    that note and frees the second region, so that the live regions, the
    accessible regions and the notes are those before the construction. *)
Theorem Buffer_resize_lifecycle (track : bool) (size newSize newPtr : Z)
        (w : World) (q1 q2 : Z) (rest : list (option Z))
        (Hsize : size <> 0) (Hnew : 0 < newSize)
        (Hq1 : q1 <> nullptr) (Hq2 : 0 < q2)
        (Hdrv : host_driver w = Some q1 :: Some q2 :: rest)
        (Hinv : reg_inv (BuffersRegister w))
        (Hsrc : newPtr <> nullptr ->
                accessible w newPtr newSize = true /\
                disjoint q2 newPtr newSize = true) :
  exists b w1 b' w2 w3,
    Buffer_MakeOwnMem track size w = (Ok b, w1) /\
    Buffer_Update b newSize newPtr w1 = (Ok b', w2) /\
    Buffer_GetRawMemPtr b' = q2 /\
    Buffer_GetRawMemSize b' = newSize /\
    host_live w2 = q2 :: host_live w /\
    host_valid w2 = (q2, newSize) :: host_valid w /\
    instances (BuffersRegister w2) =
      (if track
       then instances (BuffersRegister w)
            ++ [mkAllocInfo (ID (BuffersRegister w)) size]
       else instances (BuffersRegister w)) /\
    Buffer_dtor track b' w2 = (Ok tt, w3) /\
    host_live w3 = host_live w /\
    host_valid w3 = host_valid w /\
    instances (BuffersRegister w3) = instances (BuffersRegister w).
Proof.
  destruct Hinv as [_ Hall].
  unfold Buffer_MakeOwnMem.
  destruct (Buffer_ctor_own_effect track size w q1 (Some q2 :: rest)
                                   Hsize Hq1 Hdrv)
    as (w1 & Hmk & Hl1 & Hd1 & Hr1 & _ & _ & Hv1).
  assert (Hfree1 : host_valid (cudaFreeHost q1 w1) = host_valid w)
    by exact (host_valid_free_last w w1 q1 size Hl1 Hv1).
  assert (Hsrc1 : newPtr <> nullptr ->
                  accessible (cudaFreeHost q1 w1) newPtr newSize = true /\
                  disjoint q2 newPtr newSize = true).
  { intros Hnn. destruct (Hsrc Hnn) as [Ha Hd]. split; [| exact Hd].
    rewrite (accessible_same_regions w (cudaFreeHost q1 w1) _ _ Hfree1).
    exact Ha. }
  destruct (Buffer_Update_own_effect
              (mkBuffer size true q1
                        (if track then ID (BuffersRegister w) else 0))
              newSize newPtr w1 q2 rest eq_refl Hnew Hq2 Hd1 Hsrc1)
    as (w2 & Hup & Hl2 & _ & Hr2 & _ & _ & Hv2 & _).
  simpl in Hl2. rewrite Hl1, remove_first_head in Hl2.
  cbn [pRawData] in Hv2. rewrite Hfree1 in Hv2.
  destruct (Buffer_dtor_effect track
              (mkBuffer newSize true q2
                        (if track then ID (BuffersRegister w) else 0)) w2)
    as (w3 & Hdt & Hl3 & Hr3 & _).
  assert (Hv3 := Buffer_dtor_host_valid track _ w2 w3 Hdt).
  simpl in Hl3, Hr3. rewrite Hl2, remove_first_head in Hl3.
  cbn [pRawData own_memory] in Hv3.
  rewrite (host_valid_free_last w w2 q2 newSize Hl2 Hv2) in Hv3.
  do 5 eexists.
  split; [exact Hmk |]. split; [exact Hup |].
  split; [reflexivity |]. split; [reflexivity |].
  split; [exact Hl2 |]. split; [exact Hv2 |].
  split; [rewrite Hr2, Hr1; destruct track; reflexivity |].
  split; [exact Hdt |]. split; [exact Hl3 |]. split; [exact Hv3 |].
  rewrite Hr3, Hr2, Hr1. destruct track; [| reflexivity].
  apply (instances_DeleteNote_AddNote (BuffersRegister w) size newSize Hall).
Qed.

Lemma Buffer_resize_lifecycle_witness :
  let w := mkWorld AllocRegister_init AllocRegister_init []
                   (fun a => a mod 256) [] [Some 5000; Some 6000] []
                   [(1000, 256)] [] in
  (64 <> 0 /\ 0 < 128 /\ 5000 <> nullptr /\ 0 < 6000 /\
   host_driver w = [Some 5000; Some 6000] /\
   accessible w 1000 128 = true /\ disjoint 6000 1000 128 = true /\
   reg_inv (BuffersRegister w)) /\
  exists b w1 b' w2 w3,
    Buffer_MakeOwnMem true 64 w = (Ok b, w1) /\
    Buffer_Update b 128 1000 w1 = (Ok b', w2) /\
    Buffer_GetRawMemSize b' = 128 /\
    host_live w2 = [6000] /\
    host_valid w2 = [(6000, 128); (1000, 256)] /\
    instances (BuffersRegister w2) = [mkAllocInfo 0 64] /\
    Buffer_dtor true b' w2 = (Ok tt, w3) /\
    host_live w3 = [] /\
    host_valid w3 = [(1000, 256)] /\
    instances (BuffersRegister w3) = [].
Proof.
  cbv zeta.
  set (w := mkWorld AllocRegister_init AllocRegister_init []
                    (fun a => a mod 256) [] [Some 5000; Some 6000] []
                    [(1000, 256)] []).
  assert (Hs : 64 <> 0) by lia.
  assert (Hn : 0 < 128) by lia.
  assert (Hq : 5000 <> nullptr) by (unfold nullptr; lia).
  assert (Hq' : 0 < 6000) by lia.
  assert (Hd : host_driver w = Some 5000 :: Some 6000 :: []) by reflexivity.
  assert (Ha : accessible w 1000 128 = true) by reflexivity.
  assert (Hj : disjoint 6000 1000 128 = true) by reflexivity.
  assert (Hi : reg_inv (BuffersRegister w)) by (split; simpl; constructor).
  split; [repeat (split; [assumption |]); assumption |].
  destruct (Buffer_resize_lifecycle true 64 128 1000 w 5000 6000 []
                                    Hs Hn Hq Hq' Hd Hi (fun _ => conj Ha Hj))
    as (b & w1 & b' & w2 & w3 & Hmk & Hup & _ & Hsz & Hl2 & Hv2 & Hr2 & Hdt &
        Hl3 & Hv3 & Hr3).
  exists b, w1, b', w2, w3. repeat (split; [assumption |]). exact Hr3.
Defined.

(** A new region that does not overlap a range does not make that range
    accessible. *)
Lemma accessible_not_in_new_region (w w1 : World) (p a n : Z) :
  host_valid w1 = (p, n) :: host_valid w ->
  0 < n ->
  accessible w a n = false ->
  disjoint p a n = true ->
  accessible w1 a n = false.
Proof.
  intros Hvalid Hn Hgone Hdisj. unfold accessible in *. rewrite Hvalid.
  destruct (0 <? a); [| reflexivity]. simpl in *. rewrite Hgone.
  rewrite orb_false_r. unfold in_region, disjoint in *. simpl.
  apply andb_false_iff. apply orb_true_iff in Hdisj.
  destruct Hdisj as [Hd | Hd]; apply Z.leb_le in Hd.
  - right. apply Z.leb_gt. lia.
  - left. apply Z.leb_gt. lia.
Qed.

(** X21: the two ways in which [Update] with a source is undefined on an
    owning buffer.  [Update] ignores what [Allocate] returns, so when the
    reallocation returns no memory the copy is made into the null pointer;
    and [Update] frees the old region before it copies, so a source that
    cannot be read once that region is freed, such as the old region of the
    buffer itself, is read after it was freed. *)
Theorem Buffer_Update_undefined (b : Buffer) (newSize newPtr : Z) (w : World)
        (Hown : own_memory b = true) (Hsize : 0 < newSize)
        (Hsrc : newPtr <> nullptr) :
  (cudaMallocHost_fails w ->
   exists w', Buffer_Update b newSize newPtr w = (Fault, w')) /\
  (accessible (cudaFreeHost (pRawData b) w) newPtr newSize = false ->
   exists w', Buffer_Update b newSize newPtr w = (Fault, w')).
Proof.
  assert (Hnz : (newSize =? 0) = false) by (apply Z.eqb_neq; lia).
  assert (Hnn : (newPtr =? nullptr) = false) by (apply Z.eqb_neq; exact Hsrc).
  split.
  - intros Hfail.
    unfold Buffer_Update, Buffer_Deallocate, bind, call, ret.
    rewrite Hown. simpl. rewrite Hown.
    unfold Buffer_Allocate, Buffer_GetRawMemSize. simpl. rewrite Hnz. simpl.
    destruct (cudaMallocHost nullptr newSize (cudaFreeHost (pRawData b) w))
      as [p w1] eqn:Ealloc.
    assert (Hnull : p = nullptr).
    { specialize (Hfail newSize).
      unfold cudaMallocHost, cudaFreeHost in *. simpl in *.
      destruct (host_driver w) as [| [p' |] rest];
        inversion Ealloc; subst; simpl in *; auto. }
    subst p. rewrite Hnn. simpl.
    unfold Buffer_GetRawMemPtr, memcpy, accessible. simpl.
    rewrite Hnz. simpl. eexists. reflexivity.
  - intros Hgone.
    unfold Buffer_Update, Buffer_Deallocate, bind, call, ret.
    rewrite Hown. simpl. rewrite Hown.
    unfold Buffer_Allocate, Buffer_GetRawMemSize. simpl. rewrite Hnz. simpl.
    destruct (cudaMallocHost nullptr newSize (cudaFreeHost (pRawData b) w))
      as [p w1] eqn:Ealloc.
    rewrite Hnn. simpl. unfold Buffer_GetRawMemPtr. simpl.
    assert (Hsrc1 : accessible w1 newPtr newSize && disjoint p newPtr newSize
                    = false).
    { unfold cudaMallocHost in Ealloc.
      destruct (host_driver (cudaFreeHost (pRawData b) w))
        as [| [p' |] rest] eqn:Edrv;
        inversion Ealloc; subst; clear Ealloc.
      - rewrite Hgone. reflexivity.
      - destruct (disjoint p newPtr newSize) eqn:Ed;
          [| apply andb_false_r].
        rewrite andb_true_r.
        eapply accessible_not_in_new_region;
          [ | exact Hsize | exact Hgone | exact Ed ]; reflexivity.
      - rewrite (accessible_same_regions (cudaFreeHost (pRawData b) w)).
        + rewrite Hgone. reflexivity.
        + reflexivity. }
    unfold memcpy. rewrite Hnz.
    rewrite <- andb_assoc, Hsrc1, andb_false_r.
    eexists. reflexivity.
Qed.

Lemma Buffer_Update_undefined_witness :
  let b := mkBuffer 16 true 5000 0 in
  let w := mkWorld AllocRegister_init AllocRegister_init [5000]
                   (fun a => a mod 256) [] [Some 6000] []
                   [(5000, 16)] [] in
  (own_memory b = true /\ 0 < 16 /\ 5000 <> nullptr /\
   accessible w 5000 16 = true /\
   accessible (cudaFreeHost (pRawData b) w) 5000 16 = false) /\
  exists w', Buffer_Update b 16 (Buffer_GetRawMemPtr b) w = (Fault, w').
Proof.
  cbv zeta.
  set (w := mkWorld AllocRegister_init AllocRegister_init [5000]
                    (fun a => a mod 256) [] [Some 6000] []
                    [(5000, 16)] []).
  assert (Ho : own_memory (mkBuffer 16 true 5000 0) = true) by reflexivity.
  assert (Hs : 0 < 16) by lia.
  assert (Hn : 5000 <> nullptr) by (unfold nullptr; lia).
  assert (Ha : accessible w 5000 16 = true) by reflexivity.
  assert (Hg : accessible (cudaFreeHost (pRawData (mkBuffer 16 true 5000 0))
                                        w) 5000 16 = false) by reflexivity.
  split; [repeat (split; [assumption |]); assumption |].
  exact (proj2 (Buffer_Update_undefined (mkBuffer 16 true 5000 0) 16 5000 w
                                        Ho Hs Hn) Hg).
Defined.

(** X10: a buffer made by one of the two non-owning factories never touches
    the pinned allocator: [Make(size)] has a null raw pointer,
    [Make(size, p)] wraps [p]; rebinding it with [Update] and destroying it
    frees nothing, so a region it wrapped is still live if it was, host
    memory is never written, and with the register invariant the notes of
    the buffers register are, after the destruction, those before the
    construction. *)
Theorem Buffer_view_lifecycle (track : bool) (size p newSize newPtr : Z)
        (w : World) (Hinv : reg_inv (BuffersRegister w)) :
  (exists b w1 w2,
      Buffer_Make track size w = (Ok b, w1) /\
      Buffer_GetRawMemPtr b = nullptr /\
      Buffer_GetRawMemSize b = size /\
      host_allocator_untouched w w1 /\
      Buffer_dtor track b w1 = (Ok tt, w2) /\
      host_allocator_untouched w w2 /\
      instances (BuffersRegister w2) = instances (BuffersRegister w)) /\
  (exists b w1 b' w2,
      Buffer_Make_from track size p w = (Ok b, w1) /\
      Buffer_Update b newSize newPtr w1 = (Ok b', w1) /\
      Buffer_GetRawMemPtr b' = newPtr /\
      Buffer_dtor track b' w1 = (Ok tt, w2) /\
      host_allocator_untouched w w2 /\
      host_mem w2 = host_mem w /\
      instances (BuffersRegister w2) = instances (BuffersRegister w)).
Proof.
  destruct Hinv as [_ Hall].
  assert (Hback : forall s s',
             instances (DeleteNote (snd (AddNote (BuffersRegister w) s))
                                   (mkAllocInfo (ID (BuffersRegister w)) s'))
             = instances (BuffersRegister w))
    by (intros s s'; apply instances_DeleteNote_AddNote; exact Hall).
  unfold host_allocator_untouched.
  split.
  - unfold Buffer_Make, Buffer_ctor, Buffer_note, Buffer_dtor,
      Buffer_Deallocate, bind, call, ret.
    destruct track; simpl; do 3 eexists;
      repeat split; try reflexivity; simpl; apply Hback.
  - unfold Buffer_Make_from, Buffer_ctor_from, Buffer_note, Buffer_Update,
      Buffer_dtor, Buffer_Deallocate, bind, call, ret.
    destruct track; simpl; do 4 eexists;
      repeat split; try reflexivity; simpl; apply Hback.
Qed.

Lemma Buffer_view_lifecycle_witness :
  let w := mkWorld AllocRegister_init AllocRegister_init [1000]
                   (fun a => a mod 256) [] [Some 5000] []
                   [(1000, 16)] [] in
  reg_inv (BuffersRegister w) /\
  exists b w1 b' w2,
    Buffer_Make_from true 16 1000 w = (Ok b, w1) /\
    Buffer_Update b 8 1008 w1 = (Ok b', w1) /\
    Buffer_GetRawMemPtr b' = 1008 /\
    Buffer_dtor true b' w1 = (Ok tt, w2) /\
    host_live w2 = [1000] /\
    instances (BuffersRegister w2) = [].
Proof.
  cbv zeta.
  assert (Hi : reg_inv (BuffersRegister
                          (mkWorld AllocRegister_init AllocRegister_init
                                   [1000] (fun a => a mod 256) []
                                   [Some 5000] [] [(1000, 16)] [])))
    by (split; simpl; constructor).
  split; [exact Hi |].
  destruct (Buffer_view_lifecycle true 16 1000 8 1008 _ Hi)
    as (_ & b & w1 & b' & w2 & Hmk & Hup & Hptr & Hdt & [_ Hlive] & _ & Hreg).
  exists b, w1, b', w2. repeat (split; [assumption |]). exact Hreg.
Defined.

(** ** The life of a device plane *)

(** The allocating constructor, field by field, for each answer of the
    driver. *)
Lemma SurfacePlane_ctor_effect (track : bool)
      (newWidth newHeight newElemSize context : Z) (w : World) :
  exists p w1,
    SurfacePlane_ctor track newWidth newHeight newElemSize context w
    = (Ok p, w1) /\
    ownMem p = true /\
    plane_id p = (if track then ID (HWSurfaceRegister w) else 0) /\
    HWSurfaceRegister w1 =
      (if track then snd (AddNote (HWSurfaceRegister w) (gpuMem p))
       else HWSurfaceRegister w) /\
    BuffersRegister w1 = BuffersRegister w /\
    host_live w1 = host_live w /\
    dev_driver w1 = tl (dev_driver w) /\
    match dev_driver w with
    | AllocPitchOk d np :: _ =>
        gpuMem p = d /\ pitch p = wrap32 np /\ dev_live w1 = d :: dev_live w
    | AllocPitchFail g :: _ =>
        gpuMem p = nullptr /\ pitch p = wrap32 g /\ dev_live w1 = dev_live w
    | [] => gpuMem p = nullptr /\ dev_live w1 = dev_live w
    end.
Proof.
  unfold SurfacePlane_ctor, SurfacePlane_Allocate, cuMemAllocPitch. simpl.
  destruct (dev_driver w) as [| [d np | g] rest] eqn:E;
    destruct track; simpl; do 2 eexists; repeat split;
    try reflexivity; simpl; rewrite ?E; reflexivity.
Qed.

(** The destructor of an owning plane. *)
Lemma SurfacePlane_dtor_effect (track : bool) (p : SurfacePlane) (w : World) :
  ownMem p = true ->
  exists w',
    SurfacePlane_dtor track p w = (Ok tt, w') /\
    dev_live w' = remove_first (gpuMem p) (dev_live w) /\
    HWSurfaceRegister w' =
      (if track
       then DeleteNote (HWSurfaceRegister w)
                       (mkAllocInfo (plane_id p) (gpuMem p))
       else HWSurfaceRegister w) /\
    dev_driver w' = dev_driver w /\
    BuffersRegister w' = BuffersRegister w /\
    host_live w' = host_live w.
Proof.
  intros Hown.
  unfold SurfacePlane_dtor, SurfacePlane_Deallocate, OwnMemory, GpuMem,
    bind, call, ret.
  rewrite Hown. destruct track; simpl; eexists; repeat split; reflexivity.
Qed.

(** X11: when the driver answers the allocation of a plane with the device
    pointer [d] and the pitch [newPitch], the constructor gives an owning
    plane at [d] with the requested width, height and element size, whose
    pitch is [newPitch] cut to 32 bits; [d] is then live; and with tracking
    on, exactly one note is appended to the device-plane register, whose
    size field is the device pointer [d], not a number of bytes.  The host
    side is not touched. *)
Theorem SurfacePlane_ctor_success (track : bool)
        (newWidth newHeight newElemSize context : Z) (w : World)
        (d newPitch : Z) (rest : list AllocPitchAnswer)
        (Hdrv : dev_driver w = AllocPitchOk d newPitch :: rest) :
  exists p w1,
    SurfacePlane_ctor track newWidth newHeight newElemSize context w
    = (Ok p, w1) /\
    OwnMemory p = true /\ GpuMem p = d /\
    Plane_Width p = newWidth /\ Plane_Height p = newHeight /\
    Plane_ElemSize p = newElemSize /\
    Plane_Pitch p = newPitch mod 2 ^ 32 /\
    dev_live w1 = d :: dev_live w /\
    dev_driver w1 = rest /\
    instances (HWSurfaceRegister w1) =
      (if track
       then instances (HWSurfaceRegister w)
            ++ [mkAllocInfo (ID (HWSurfaceRegister w)) d]
       else instances (HWSurfaceRegister w)) /\
    BuffersRegister w1 = BuffersRegister w /\
    host_live w1 = host_live w.
Proof.
  unfold SurfacePlane_ctor, SurfacePlane_Allocate, cuMemAllocPitch. simpl.
  rewrite Hdrv.
  destruct track; simpl; do 2 eexists; repeat split; reflexivity.
Qed.

Lemma SurfacePlane_ctor_success_witness :
  let w := World_with [] [AllocPitchOk 4096 4294967808] in
  dev_driver w = [AllocPitchOk 4096 4294967808] /\
  exists p w1,
    SurfacePlane_ctor true 17 5 1 7 w = (Ok p, w1) /\
    GpuMem p = 4096 /\
    Plane_Pitch p = 512 /\
    dev_live w1 = [4096] /\
    instances (HWSurfaceRegister w1) = [mkAllocInfo 0 4096].
Proof.
  cbv zeta. split; [reflexivity |].
  destruct (SurfacePlane_ctor_success true 17 5 1 7
              (World_with [] [AllocPitchOk 4096 4294967808])
              4096 4294967808 [] eq_refl)
    as (p & w1 & Hrun & _ & Hptr & _ & _ & _ & Hpitch & Hlive & _ & Hreg & _).
  exists p, w1. repeat (split; [assumption |]). exact Hreg.
Defined.

(** Constructing a plane keeps the conditions on the register and on the
    driver, and what the constructor did is undone by the destructor in
    any later world that has the same live regions and notes. *)
Lemma SurfacePlane_scope (track : bool) (k : Z)
      (newWidth newHeight newElemSize context : Z) (w : World) :
  0 <= k -> HW_ready (k + 1) w -> dev_wf w ->
  exists p w1,
    SurfacePlane_ctor track newWidth newHeight newElemSize context w
    = (Ok p, w1) /\
    ownMem p = true /\
    width p = newWidth /\ height p = newHeight /\
    HW_ready k w1 /\ dev_wf w1 /\
    dev_driver w1 = tl (dev_driver w) /\
    LiveCount w1 = LiveCount w + (if track then 1 else 0) /\
    forall w2,
      dev_live w2 = dev_live w1 ->
      instances (HWSurfaceRegister w2) = instances (HWSurfaceRegister w1) ->
      exists w3,
        SurfacePlane_dtor track p w2 = (Ok tt, w3) /\
        dev_live w3 = dev_live w /\
        instances (HWSurfaceRegister w3) = instances (HWSurfaceRegister w) /\
        dev_driver w3 = dev_driver w2.
Proof.
  intros Hk [[Hnd Hall] [Hlo Hhi]] [Hnull Hans].
  destruct (SurfacePlane_ctor_geometry track newWidth newHeight newElemSize
                                       context w)
    as (p0 & w0 & Hrun0 & Hw0 & Hh0 & _ & _).
  destruct (SurfacePlane_ctor_effect track newWidth newHeight newElemSize
                                     context w)
    as (p & w1 & Hrun & Hown & Hid & Hreg & _ & _ & Hdrv & Hcase).
  rewrite Hrun in Hrun0. inversion Hrun0; subst p0 w0. clear Hrun0.
  assert (Hwrap : wrap64 (ID (HWSurfaceRegister w) + 1)
                  = ID (HWSurfaceRegister w) + 1)
    by (unfold wrap64; apply Z.mod_small; lia).
  assert (Hlive : (dev_live w1 = gpuMem p :: dev_live w /\
                   gpuMem p <> nullptr) \/
                  (dev_live w1 = dev_live w /\ gpuMem p = nullptr)).
  { destruct (dev_driver w) as [| [d np | g] rest].
    - right. tauto.
    - left. destruct Hcase as (Hd & _ & Hl). rewrite Hd. split; [exact Hl |].
      inversion Hans as [| a l Ha _]; subst. exact Ha.
    - right. tauto. }
  exists p, w1. split; [exact Hrun |]. split; [exact Hown |].
  split; [exact Hw0 |]. split; [exact Hh0 |].
  split; [| split; [| split; [exact Hdrv | split]]].
  - (* the register is ready for k more notes *)
    unfold HW_ready. rewrite Hreg. destruct track.
    + unfold reg_inv, ID_room, AddNote. simpl. rewrite Hwrap.
      split; [split |]; [| | lia].
      * rewrite map_app. simpl. apply NoDup_app; [exact Hnd | |].
        -- constructor; [intros [] | constructor].
        -- intros a Hin [Heq | []]. subst a.
           apply in_map_iff in Hin. destruct Hin as (n & Hn & Hin).
           rewrite Forall_forall in Hall. specialize (Hall n Hin). lia.
      * apply Forall_app. split.
        -- rewrite Forall_forall in *. intros n Hin.
           specialize (Hall n Hin). lia.
        -- constructor; [simpl; lia | constructor].
    + unfold reg_inv, ID_room. repeat split; try assumption; lia.
  - (* the device side is still well formed *)
    unfold dev_wf. rewrite Hdrv. split.
    + destruct Hlive as [[Hl Hne] | [Hl _]]; rewrite Hl; [| exact Hnull].
      intros [Heq | Hin]; [congruence | exact (Hnull Hin)].
    + destruct (dev_driver w) as [| a rest]; simpl; [constructor |].
      inversion Hans; assumption.
  - (* one more note with tracking *)
    unfold LiveCount. rewrite Hreg. destruct track; [| lia].
    unfold GetSize, AddNote. simpl. rewrite length_app. simpl. lia.
  - (* the destructor undoes it *)
    intros w2 Hl2 Hi2.
    destruct (SurfacePlane_dtor_effect track p w2 Hown)
      as (w3 & Hdt & Hl3 & Hr3 & Hd3 & _).
    exists w3. split; [exact Hdt |]. split; [| split; [| exact Hd3]].
    + rewrite Hl3, Hl2.
      destruct Hlive as [[Hl _] | [Hl Hz]]; rewrite Hl.
      * apply remove_first_head.
      * rewrite Hz. apply remove_first_absent. exact Hnull.
    + rewrite Hr3. destruct track; [| rewrite Hi2, Hreg; reflexivity].
      simpl. rewrite Hi2, Hreg, Hid.
      change (filter (fun n => negb (AllocInfo_eqb n
                (mkAllocInfo (ID (HWSurfaceRegister w)) (gpuMem p))))
                (instances (snd (AddNote (HWSurfaceRegister w) (gpuMem p)))))
        with (instances (DeleteNote
                (snd (AddNote (HWSurfaceRegister w) (gpuMem p)))
                (mkAllocInfo (ID (HWSurfaceRegister w)) (gpuMem p)))).
      apply instances_DeleteNote_AddNote. exact Hall.
Qed.

(** X12: whatever the driver answers, success or failure, an owning plane
    that is constructed and then destroyed leaves the live device regions
    and the notes of the device-plane register as they were; in between,
    with tracking on, the register holds exactly one more note, even when
    the allocation failed. *)
Theorem SurfacePlane_lifecycle (track : bool)
        (newWidth newHeight newElemSize context : Z) (w : World)
        (Hready : HW_ready 1 w) (Hwf : dev_wf w) :
  exists p w1 w2,
    SurfacePlane_ctor track newWidth newHeight newElemSize context w
    = (Ok p, w1) /\
    LiveCount w1 = LiveCount w + (if track then 1 else 0) /\
    SurfacePlane_dtor track p w1 = (Ok tt, w2) /\
    dev_live w2 = dev_live w /\
    instances (HWSurfaceRegister w2) = instances (HWSurfaceRegister w) /\
    LiveCount w2 = LiveCount w.
Proof.
  destruct (SurfacePlane_scope track 0 newWidth newHeight newElemSize
                               context w (Z.le_refl 0) Hready Hwf)
    as (p & w1 & Hrun & _ & _ & _ & _ & _ & _ & Hcount & Hundo).
  destruct (Hundo w1 eq_refl eq_refl) as (w2 & Hdt & Hlive & Hreg & _).
  exists p, w1, w2. repeat (split; [assumption |]).
  unfold LiveCount, GetSize. rewrite Hreg. reflexivity.
Qed.

Lemma SurfacePlane_lifecycle_witness :
  let w := World_with [] [AllocPitchFail 12345] in
  (HW_ready 1 w /\ dev_wf w) /\
  exists p w1 w2,
    SurfacePlane_ctor true 17 5 1 7 w = (Ok p, w1) /\
    LiveCount w1 = LiveCount w + 1 /\
    SurfacePlane_dtor true p w1 = (Ok tt, w2) /\
    dev_live w2 = dev_live w /\
    LiveCount w2 = LiveCount w.
Proof.
  cbv zeta.
  assert (Hr : HW_ready 1 (World_with [] [AllocPitchFail 12345])).
  { split; [split; simpl; constructor |]. unfold ID_room. simpl. lia. }
  assert (Hw : dev_wf (World_with [] [AllocPitchFail 12345])).
  { split; simpl; [tauto |]. repeat constructor. }
  split; [split; assumption |].
  destruct (SurfacePlane_lifecycle true 17 5 1 7 _ Hr Hw)
    as (p & w1 & w2 & Hrun & Hc & Hdt & Hl & _ & Hc2).
  exists p, w1, w2. repeat (split; [assumption |]). exact Hc2.
Defined.

(** ** Making and destroying surfaces *)

(** One plane constructor: one call of the driver, one note with tracking,
    nothing thrown, whatever the answer. *)
Lemma SurfacePlane_ctor_counts (track : bool)
      (newWidth newHeight newElemSize context : Z) (w : World) :
  exists p w1,
    SurfacePlane_ctor track newWidth newHeight newElemSize context w
    = (Ok p, w1) /\
    ownMem p = true /\
    dev_driver w1 = tl (dev_driver w) /\
    LiveCount w1 = LiveCount w + (if track then 1 else 0) /\
    BuffersRegister w1 = BuffersRegister w /\
    host_live w1 = host_live w.
Proof.
  destruct (SurfacePlane_ctor_effect track newWidth newHeight newElemSize
                                     context w)
    as (p & w1 & Hrun & Hown & _ & Hreg & Hbuf & Hhost & Hdrv & _).
  exists p, w1. repeat (split; [assumption |]). split; [| tauto].
  unfold LiveCount. rewrite Hreg. destruct track; [| lia].
  unfold GetSize, AddNote. simpl. rewrite length_app. simpl. lia.
Qed.

(** What [Surface::Make] does for each tag: the surface it returns, the calls
    of the driver and the notes. *)
Lemma Surface_Make_counts (track : bool)
        (format : Pixel_Format) (newWidth newHeight context : Z) (w : World) :
  exists r w',
    Surface_Make track format newWidth newHeight context w = (Ok r, w') /\
    match r with
    | None => format = UNDEFINED /\ w' = w
    | Some s =>
        format_of s = format /\
        Forall (fun p => ownMem p = true) (planes_of s) /\
        dev_driver w' = skipn (length (planes_of s)) (dev_driver w) /\
        LiveCount w' =
          LiveCount w + (if track then Z.of_nat (length (planes_of s))
                         else 0) /\
        BuffersRegister w' = BuffersRegister w /\
        host_live w' = host_live w
    end.
Proof.
  assert (Hskip1 : forall l : list AllocPitchAnswer, skipn 1 l = tl l)
    by (intros [| a l]; reflexivity).
  assert (Hskip3 : forall l : list AllocPitchAnswer,
             skipn 3 l = tl (tl (tl l)))
    by (intros [| a [| b [| c l]]]; reflexivity).
  destruct format;
    unfold Surface_Make, SurfaceY_ctor, SurfaceRGB_ctor, SurfaceNV12_ctor,
      SurfaceYUV420_ctor, SurfaceRGBPlanar_ctor, bind;
    [ do 2 eexists; split; [reflexivity | split; reflexivity] | | | | | ];
    try (match goal with
         | |- context [SurfacePlane_ctor ?t ?a ?b ?c ?d ?v] =>
             destruct (SurfacePlane_ctor_counts t a b c d v)
               as (p & w1 & -> & Hown & Hdrv & Hcount & Hbuf & Hhost)
         end;
         unfold ret; do 2 eexists; split; [reflexivity |];
         cbn [planes_of length format_of]; rewrite Hskip1;
         split; [reflexivity |];
         split; [repeat constructor; exact Hown |];
         split; [exact Hdrv |];
         split; [rewrite Hcount; destruct track; simpl; lia |];
         split; assumption).
  (* YUV420 *)
  destruct (SurfacePlane_ctor_counts track newWidth newHeight
                                     Surface_ElemSize context w)
    as (py & w1 & -> & Hoy & Hdy & Hcy & Hby & Hhy).
  destruct (SurfacePlane_ctor_counts track (newWidth / 2) (newHeight / 2)
                                     Surface_ElemSize context w1)
    as (pu & w2 & -> & Hou & Hdu & Hcu & Hbu & Hhu).
  destruct (SurfacePlane_ctor_counts track (newWidth / 2) (newHeight / 2)
                                     Surface_ElemSize context w2)
    as (pv & w3 & -> & Hov & Hdv & Hcv & Hbv & Hhv).
  unfold ret. do 2 eexists. split; [reflexivity |].
  cbn [planes_of length format_of]. rewrite Hskip3.
  split; [reflexivity |].
  split; [repeat constructor; assumption |].
  split; [rewrite Hdv, Hdu, Hdy; reflexivity |].
  split; [rewrite Hcv, Hcu, Hcy; destruct track; lia |].
  split; [congruence | congruence].
Qed.

(** X13: [Surface::Make(format, width, height, context)] never throws.  For
    a tag outside the known set it returns the null pointer and leaves the
    world untouched.  For each of the five formats it returns a surface of
    the class of that format, all of whose planes own their memory; it has
    called the device allocator once per member plane (once, or three times
    for YUV420) and, with tracking on, added one note per member plane,
    whether or not the allocations succeeded; the host side is not
    touched. *)
Theorem Surface_Make_allocates_each_plane (track : bool)
        (format : Pixel_Format) (newWidth newHeight context : Z) (w : World) :
  exists r w',
    Surface_Make track format newWidth newHeight context w = (Ok r, w') /\
    match r with
    | None => format = UNDEFINED /\ w' = w
    | Some s =>
        format_of s = format /\
        Forall (fun p => ownMem p = true) (planes_of s) /\
        dev_driver w' = skipn (length (planes_of s)) (dev_driver w) /\
        LiveCount w' =
          LiveCount w + (if track then Z.of_nat (length (planes_of s))
                         else 0) /\
        BuffersRegister w' = BuffersRegister w /\
        host_live w' = host_live w
    end.
Proof.
  destruct (Surface_Make_counts track format newWidth newHeight context w)
    as (r & w' & Hrun & Hr).
  exists r, w'. split; [exact Hrun |].
  destruct r as [s |]; exact Hr.
Qed.

(** Making a surface and destroying it, plane by plane. *)
Lemma Surface_scope (track : bool) (format : Pixel_Format)
        (newWidth newHeight context : Z) (w : World)
        (Hknown : format <> UNDEFINED)
        (Hready : HW_ready 3 w) (Hwf : dev_wf w) :
  exists s w1 w2,
    Surface_Make track format newWidth newHeight context w
    = (Ok (Some s), w1) /\
    Surface_dtor track s w1 = (Ok tt, w2) /\
    dev_live w2 = dev_live w /\
    instances (HWSurfaceRegister w2) = instances (HWSurfaceRegister w) /\
    LiveCount w2 = LiveCount w.
Proof.
  assert (Hcount : forall w2,
             instances (HWSurfaceRegister w2)
             = instances (HWSurfaceRegister w) ->
             LiveCount w2 = LiveCount w)
    by (intros w2 E; unfold LiveCount, GetSize; rewrite E; reflexivity).
  change 3 with (2 + 1) in Hready.
  destruct format; [congruence | | | | |];
    unfold Surface_Make, SurfaceY_ctor, SurfaceRGB_ctor, SurfaceNV12_ctor,
      SurfaceYUV420_ctor, SurfaceRGBPlanar_ctor, bind;
    try (match goal with
         | |- context [SurfacePlane_ctor ?t ?a ?b ?c ?d ?v] =>
             destruct (SurfacePlane_scope t 2 a b c d v ltac:(lia) Hready Hwf)
               as (p & w1 & -> & _ & _ & _ & _ & _ & _ & _ & Hundo)
         end;
         destruct (Hundo w1 eq_refl eq_refl) as (w2 & Hdt & Hlive & Hreg & _);
         unfold ret; do 3 eexists; split; [reflexivity |];
         split; [exact Hdt |]; split; [exact Hlive |];
         split; [exact Hreg | exact (Hcount w2 Hreg)]).
  (* YUV420: three planes, destroyed in reverse order *)
  destruct (SurfacePlane_scope track 2 newWidth newHeight Surface_ElemSize
                               context w ltac:(lia) Hready Hwf)
    as (py & w1 & -> & _ & _ & _ & Hready1 & Hwf1 & _ & _ & HundoY).
  change 2 with (1 + 1) in Hready1.
  destruct (SurfacePlane_scope track 1 (newWidth / 2) (newHeight / 2)
                               Surface_ElemSize context w1 ltac:(lia)
                               Hready1 Hwf1)
    as (pu & w2 & -> & _ & _ & _ & Hready2 & Hwf2 & _ & _ & HundoU).
  change 1 with (0 + 1) in Hready2.
  destruct (SurfacePlane_scope track 0 (newWidth / 2) (newHeight / 2)
                               Surface_ElemSize context w2 ltac:(lia)
                               Hready2 Hwf2)
    as (pv & w3 & -> & _ & _ & _ & _ & _ & _ & _ & HundoV).
  destruct (HundoV w3 eq_refl eq_refl) as (w4 & HdtV & HlV & HrV & _).
  destruct (HundoU w4 HlV HrV) as (w5 & HdtU & HlU & HrU & _).
  destruct (HundoY w5 HlU HrU) as (w6 & HdtY & HlY & HrY & _).
  unfold ret. exists (SurfaceYUV420 py pu pv), w3, w6.
  split; [reflexivity |].
  split; [simpl; unfold bind; rewrite HdtV, HdtU; exact HdtY |].
  split; [exact HlY |]. split; [exact HrY | exact (Hcount w6 HrY)].
Qed.



(** ** Views do not keep memory alive *)

Lemma In_remove_first (x y : Z) (l : list Z) :
  In y (remove_first x l) -> In y l.
Proof.
  induction l as [| q l IH]; simpl; [tauto |].
  destruct (q =? x); simpl; intuition.
Qed.

Lemma NoDup_remove_first (x : Z) (l : list Z) :
  NoDup l -> NoDup (remove_first x l).
Proof.
  induction l as [| q l IH]; simpl; intros Hnd; [constructor |].
  inversion Hnd as [| a l' Hnotin Hnd']; subst.
  destruct (q =? x); [exact Hnd' |].
  constructor; [| auto].
  intros Hin. apply Hnotin. exact (In_remove_first x q l Hin).
Qed.

Lemma remove_first_gone (x : Z) (l : list Z) :
  NoDup l -> ~ In x (remove_first x l).
Proof.
  induction l as [| q l IH]; simpl; intros Hnd; [tauto |].
  inversion Hnd as [| a l' Hnotin Hnd']; subst.
  destruct (q =? x) eqn:E.
  - apply Z.eqb_eq in E. subst q. exact Hnotin.
  - apply Z.eqb_neq in E. intros [Heq | Hin]; [congruence |].
    exact (IH Hnd' Hin).
Qed.

(** X15: a clone does not keep the memory of the surface it was cloned from
    alive.  When every plane of a surface owns its memory and no region is
    live twice, then after the surface is destroyed no plane of a clone
    made before points to a live region, although each still holds the
    device pointer of the plane it was copied from; destroying the clone
    afterwards frees nothing. *)
Theorem clone_dangles_after_owner (track : bool) (s : Surface) (w : World)
        (Hown : Forall (fun p => ownMem p = true) (planes_of s))
        (Hnd : NoDup (dev_live w)) :
  exists c w',
    Clone s w = (Ok c, w) /\
    Forall2 (fun q p => gpuMem q = gpuMem p) (planes_of c) (planes_of s) /\
    Surface_dtor track s w = (Ok tt, w') /\
    Forall (fun q => ~ In (gpuMem q) (dev_live w')) (planes_of c) /\
    Surface_dtor track c w' = (Ok tt, w').
Proof.
  destruct s as [p | p | py pu pv | p | p]; simpl in Hown;
    repeat match goal with
           | H : Forall _ (_ :: _) |- _ => inversion H; subst; clear H
           end.
  1, 2, 4, 5:
    (destruct (SurfacePlane_dtor_effect track p w ltac:(assumption))
       as (w' & Hdt & Hlive & _);
     eexists; exists w';
     split; [reflexivity |]; simpl;
     split; [repeat constructor |];
     split; [exact Hdt |];
     split; [constructor; [| constructor]; simpl; rewrite Hlive;
             apply remove_first_gone; exact Hnd |];
     unfold SurfacePlane_dtor;
     apply SurfacePlane_Deallocate_view; reflexivity).
  destruct (SurfacePlane_dtor_effect track pv w ltac:(assumption))
    as (w1 & HdtV & HlV & _).
  destruct (SurfacePlane_dtor_effect track pu w1 ltac:(assumption))
    as (w2 & HdtU & HlU & _).
  destruct (SurfacePlane_dtor_effect track py w2 ltac:(assumption))
    as (w3 & HdtY & HlY & _).
  assert (Hnd1 : NoDup (dev_live w1))
    by (rewrite HlV; apply NoDup_remove_first; exact Hnd).
  assert (Hnd2 : NoDup (dev_live w2))
    by (rewrite HlU; apply NoDup_remove_first; exact Hnd1).
  eexists. exists w3.
  split; [reflexivity |]. simpl.
  split; [repeat constructor |].
  split; [unfold bind; rewrite HdtV, HdtU; exact HdtY |].
  split.
  - repeat constructor; simpl.
    + rewrite HlY. apply remove_first_gone. exact Hnd2.
    + rewrite HlY. intros Hin. apply In_remove_first in Hin.
      revert Hin. rewrite HlU. apply remove_first_gone. exact Hnd1.
    + rewrite HlY. intros Hin. apply In_remove_first in Hin.
      rewrite HlU in Hin. apply In_remove_first in Hin.
      revert Hin. rewrite HlV. apply remove_first_gone. exact Hnd.
  - unfold bind, SurfacePlane_dtor.
    rewrite !SurfacePlane_Deallocate_view by reflexivity. reflexivity.
Qed.

Lemma clone_dangles_after_owner_witness :
  let owner := mkSurfacePlane true 4096 640 720 1024 1 7 0 in
  let w := mkWorld AllocRegister_init
                   (mkAllocRegister [mkAllocInfo 0 4096] 1)
                   [] (fun _ => 0) [4096] [] [] [] [] in
  (Forall (fun p => ownMem p = true) (planes_of (SurfaceNV12 owner)) /\
   NoDup (dev_live w)) /\
  exists c w',
    Clone (SurfaceNV12 owner) w = (Ok c, w) /\
    PlanePtr c 0 = Ok 4096 /\
    Surface_dtor true (SurfaceNV12 owner) w = (Ok tt, w') /\
    dev_live w' = [] /\
    Forall (fun q => ~ In (gpuMem q) (dev_live w')) (planes_of c).
Proof.
  cbv zeta.
  assert (Ho : Forall (fun p => ownMem p = true)
                      (planes_of (SurfaceNV12
                         (mkSurfacePlane true 4096 640 720 1024 1 7 0))))
    by (repeat constructor).
  assert (Hn : NoDup (dev_live
                        (mkWorld AllocRegister_init
                                 (mkAllocRegister [mkAllocInfo 0 4096] 1)
                                 [] (fun _ => 0) [4096] [] [] [] [])))
    by (simpl; repeat constructor; simpl; tauto).
  split; [split; assumption |].
  destruct (clone_dangles_after_owner true _ _ Ho Hn)
    as (c & w' & Hclone & _ & Hdt & Hgone & _).
  exists c, w'. split; [exact Hclone |].
  simpl in Hclone. inversion Hclone; subst c.
  simpl in Hdt. inversion Hdt; subst w'.
  split; [reflexivity |]. split; [reflexivity |].
  split; [reflexivity | exact Hgone].
Defined.

(** X16: assigning an owning plane to itself ([this] and [other] being the
    same object) frees its device memory and leaves it a non-owning plane
    that still holds the freed pointer: when no region is live twice, the
    pointer of the plane is no longer live after the assignment. *)
Theorem SurfacePlane_self_assignment (track : bool) (p : SurfacePlane)
        (w : World)
        (Hown : ownMem p = true) (Hnd : NoDup (dev_live w)) :
  exists q w',
    SurfacePlane_assign track p p w = (Ok q, w') /\
    OwnMemory q = false /\
    GpuMem q = GpuMem p /\
    dev_live w' = remove_first (gpuMem p) (dev_live w) /\
    ~ In (GpuMem q) (dev_live w').
Proof.
  unfold SurfacePlane_assign, SurfacePlane_Deallocate, OwnMemory, GpuMem,
    bind, call, ret.
  rewrite Hown.
  destruct track; simpl; do 2 eexists;
    (split; [reflexivity |]); simpl;
    repeat split; apply remove_first_gone; exact Hnd.
Qed.

Lemma SurfacePlane_self_assignment_witness :
  let p := mkSurfacePlane true 4096 640 480 1024 1 7 0 in
  let w := mkWorld AllocRegister_init
                   (mkAllocRegister [mkAllocInfo 0 4096] 1)
                   [] (fun _ => 0) [4096; 8192] [] [] [] [] in
  (ownMem p = true /\ NoDup (dev_live w)) /\
  exists q w',
    SurfacePlane_assign true p p w = (Ok q, w') /\
    OwnMemory q = false /\
    GpuMem q = 4096 /\
    dev_live w' = [8192].
Proof.
  cbv zeta.
  assert (Ho : ownMem (mkSurfacePlane true 4096 640 480 1024 1 7 0) = true)
    by reflexivity.
  assert (Hn : NoDup (dev_live
                        (mkWorld AllocRegister_init
                                 (mkAllocRegister [mkAllocInfo 0 4096] 1)
                                 [] (fun _ => 0) [4096; 8192] [] [] [] []))).
  { simpl. constructor; [simpl; intuition lia |].
    constructor; [simpl; tauto | constructor]. }
  split; [split; assumption |].
  destruct (SurfacePlane_self_assignment true _ _ Ho Hn)
    as (q & w' & Hrun & Hq & Hptr & Hlive & _).
  exists q, w'. repeat (split; [assumption |]). exact Hlive.
Defined.

(** ** Assignment and geometry of surfaces *)

(** X17: the assignment operator of each of the five classes never throws
    and makes every member plane a view of the plane of the same name in
    the right-hand side; for YUV420 the Y, U and V planes become views of
    the Y, U and V planes of the right-hand side respectively. *)
Theorem Surface_assign_views (track : bool)
        (plane planeY planeU planeV : SurfacePlane)
        (other otherY otherU otherV : SurfacePlane) (w : World) :
  (exists q w', SurfaceY_assign track plane other w
                = (Ok (SurfaceY q), w') /\ view_of q other) /\
  (exists q w', SurfaceNV12_assign track plane other w
                = (Ok (SurfaceNV12 q), w') /\ view_of q other) /\
  (exists qy qu qv w',
      SurfaceYUV420_assign track planeY planeU planeV otherY otherU otherV w
      = (Ok (SurfaceYUV420 qy qu qv), w') /\
      view_of qy otherY /\ view_of qu otherU /\ view_of qv otherV) /\
  (exists q w', SurfaceRGB_assign track plane other w
                = (Ok (SurfaceRGB q), w') /\ view_of q other) /\
  (exists q w', SurfaceRGBPlanar_assign track plane other w
                = (Ok (SurfaceRGBPlanar q), w') /\ view_of q other).
Proof.
  assert (Hone : exists q w',
             SurfacePlane_assign track plane other w = (Ok q, w') /\
             view_of q other)
    by apply SurfacePlane_assign_view.
  destruct Hone as (q & w' & Hrun & Hview).
  unfold SurfaceY_assign, SurfaceNV12_assign, SurfaceYUV420_assign,
    SurfaceRGB_assign, SurfaceRGBPlanar_assign, bind.
  rewrite Hrun. unfold ret.
  split; [exists q, w'; auto |].
  split; [exists q, w'; auto |].
  split; [| split; exists q, w'; auto].
  destruct (SurfacePlane_assign_view track planeY otherY w)
    as (qy & w1 & -> & Hy).
  destruct (SurfacePlane_assign_view track planeU otherU w1)
    as (qu & w2 & -> & Hu).
  destruct (SurfacePlane_assign_view track planeV otherV w2)
    as (qv & w3 & -> & Hv).
  exists qy, qu, qv, w3. auto.
Qed.

(** X18: the nominal size of a surface made with [Surface::Make].  For Y,
    YUV420, RGB and RGB_PLANAR and every [W], [H] in the [uint32_t] range,
    with [3 * W] in range for RGB and [3 * H] in range for RGB_PLANAR,
    plane 0 reports [Width = W] and [Height = H] whatever the driver
    answered; its width in bytes is [3 * W] for RGB and [W] otherwise; and
    the planes 1 and 2 of YUV420 report [W / 2] by [H / 2]. *)
Theorem Surface_Make_nominal_geometry (track : bool) (format : Pixel_Format)
        (W H context : Z) (w : World)
        (HW : is_uint32 W) (HH : is_uint32 H)
        (Hfmt : format = Y \/ format = YUV420 \/ format = RGB \/
                format = RGB_PLANAR)
        (Hrgb : format = RGB -> 3 * W < 2 ^ 32)
        (Hplanar : format = RGB_PLANAR -> 3 * H < 2 ^ 32) :
  exists s w',
    Surface_Make track format W H context w = (Ok (Some s), w') /\
    Width s 0 = Ok W /\
    Height s 0 = Ok H /\
    WidthInBytes s 0 = Ok (match format with RGB => 3 * W | _ => W end) /\
    (format = YUV420 ->
     Width s 1 = Ok (W / 2) /\ Height s 1 = Ok (H / 2) /\
     Width s 2 = Ok (W / 2) /\ Height s 2 = Ok (H / 2)).
Proof.
  unfold is_uint32 in HW, HH.
  destruct Hfmt as [-> | [-> | [-> | ->]]];
    unfold Surface_Make, SurfaceY_ctor, SurfaceRGB_ctor,
      SurfaceYUV420_ctor, SurfaceRGBPlanar_ctor, bind.
  - destruct (SurfacePlane_ctor_geometry track W H Surface_ElemSize context w)
      as (p & w' & -> & Hw & Hh & He & _).
    unfold ret. do 2 eexists. split; [reflexivity |].
    cbn -[Z.mul Z.div wrap32].
    unfold SurfaceY_Width, SurfaceY_Height, SurfaceY_WidthInBytes,
      Plane_Width, Plane_Height, Plane_ElemSize.
    cbn -[Z.mul Z.div wrap32].
    rewrite Hw, Hh, He. unfold Surface_ElemSize.
    rewrite Z.mul_1_r, wrap32_small by lia.
    repeat split; try reflexivity. all: discriminate.
  - destruct (SurfacePlane_ctor_geometry track W H Surface_ElemSize context w)
      as (py & w1 & -> & Hwy & Hhy & Hey & _).
    destruct (SurfacePlane_ctor_geometry track (W / 2) (H / 2)
                                         Surface_ElemSize context w1)
      as (pu & w2 & -> & Hwu & Hhu & Heu & _).
    destruct (SurfacePlane_ctor_geometry track (W / 2) (H / 2)
                                         Surface_ElemSize context w2)
      as (pv & w3 & -> & Hwv & Hhv & Hev & _).
    unfold ret. do 2 eexists. split; [reflexivity |].
    cbn -[Z.mul Z.div wrap32].
    unfold Plane_Width, Plane_Height, Plane_ElemSize.
    rewrite Hwy, Hhy, Hey, Hwu, Hhu, Hwv, Hhv. unfold Surface_ElemSize.
    rewrite Z.mul_1_r, wrap32_small by lia.
    repeat split; reflexivity.
  - destruct (SurfacePlane_ctor_geometry track (wrap32 (W * 3)) H
                                         Surface_ElemSize context w)
      as (p & w' & -> & Hw & Hh & He & _).
    unfold ret. do 2 eexists. split; [reflexivity |].
    cbn -[Z.mul Z.div wrap32].
    unfold SurfaceRGB_Width, SurfaceRGB_Height, SurfaceRGB_WidthInBytes,
      Plane_Width, Plane_Height, Plane_ElemSize.
    cbn -[Z.mul Z.div wrap32].
    rewrite Hw, Hh, He. unfold Surface_ElemSize.
    specialize (Hrgb eq_refl).
    rewrite Z.mul_1_r, (wrap32_small (W * 3)) by lia.
    rewrite wrap32_small by lia. rewrite div3_mul3.
    replace (W * 3) with (3 * W) by lia.
    repeat split; try reflexivity. all: discriminate.
  - destruct (SurfacePlane_ctor_geometry track W (wrap32 (H * 3))
                                         Surface_ElemSize context w)
      as (p & w' & -> & Hw & Hh & He & _).
    unfold ret. do 2 eexists. split; [reflexivity |].
    cbn -[Z.mul Z.div wrap32].
    unfold SurfaceRGBPlanar_Width, SurfaceRGBPlanar_Height,
      SurfaceRGBPlanar_WidthInBytes, Plane_Width, Plane_Height,
      Plane_ElemSize.
    cbn -[Z.mul Z.div wrap32].
    rewrite Hw, Hh, He. unfold Surface_ElemSize.
    specialize (Hplanar eq_refl).
    rewrite (wrap32_small (H * 3)) by lia. rewrite div3_mul3.
    rewrite Z.mul_1_r, wrap32_small by lia.
    repeat split; try reflexivity. all: discriminate.
Qed.

Lemma Surface_Make_nominal_geometry_witness :
  (is_uint32 1920 /\ is_uint32 1080 /\ 3 * 1920 < 2 ^ 32) /\
  exists s w',
    Surface_Make true RGB 1920 1080 7 (World_with [] [AllocPitchOk 4096 6144])
    = (Ok (Some s), w') /\
    Width s 0 = Ok 1920 /\
    Height s 0 = Ok 1080 /\
    WidthInBytes s 0 = Ok (3 * 1920).
Proof.
  assert (HW : is_uint32 1920) by (unfold is_uint32; lia).
  assert (HH : is_uint32 1080) by (unfold is_uint32; lia).
  assert (H3 : 3 * 1920 < 2 ^ 32) by lia.
  split; [repeat (split; [assumption |]); assumption |].
  destruct (Surface_Make_nominal_geometry true RGB 1920 1080 7
              (World_with [] [AllocPitchOk 4096 6144]) HW HH)
    as (s & w' & Hmk & Hw & Hh & Hb & _).
  - right. right. left. reflexivity.
  - intros _. exact H3.
  - intros E. discriminate E.
  - exists s, w'. repeat (split; [assumption |]). exact Hb.
Defined.

(** X19: a plane that does not own its memory, such as the one the view
    constructor builds, is inert: [Allocate] returns at once without
    calling the driver, the destructor frees nothing, and assigning to it
    frees nothing, so the world is unchanged by each of them even when the
    pointer of the plane is a live region. *)
Theorem SurfacePlane_view_is_inert (track : bool) (p other : SurfacePlane)
        (w : World) (Hview : ownMem p = false) :
  SurfacePlane_Allocate track p w = (Ok p, w) /\
  SurfacePlane_dtor track p w = (Ok tt, w) /\
  (exists q, SurfacePlane_assign track p other w = (Ok q, w) /\
             view_of q other) /\
  (forall newWidth newHeight newPitch newElemSize pNewPtr,
     exists v,
       SurfacePlane_view newWidth newHeight newPitch newElemSize pNewPtr w
       = (Ok v, w) /\
       OwnMemory v = false /\ GpuMem v = pNewPtr /\
       Plane_Pitch v = newPitch /\
       SurfacePlane_dtor track v w = (Ok tt, w)).
Proof.
  split; [| split; [| split]].
  - unfold SurfacePlane_Allocate, OwnMemory. rewrite Hview. reflexivity.
  - apply SurfacePlane_Deallocate_view. exact Hview.
  - unfold SurfacePlane_assign, bind.
    rewrite SurfacePlane_Deallocate_view by exact Hview.
    eexists. split; [reflexivity | apply view_of_assigned].
  - intros. eexists. split; [reflexivity |].
    repeat split; try (apply SurfacePlane_Deallocate_view; reflexivity).
Qed.

Lemma SurfacePlane_view_is_inert_witness :
  let p := view_plane 640 480 1024 4096 in
  let w := mkWorld AllocRegister_init
                   (mkAllocRegister [mkAllocInfo 0 4096] 1)
                   [] (fun _ => 0) [4096] [] [AllocPitchOk 8192 512]
                   [] [] in
  ownMem p = false /\
  SurfacePlane_Allocate true p w = (Ok p, w) /\
  SurfacePlane_dtor true p w = (Ok tt, w).
Proof.
  cbv zeta. split; [reflexivity |].
  destruct (SurfacePlane_view_is_inert true (view_plane 640 480 1024 4096)
              SurfacePlane_default
              (mkWorld AllocRegister_init
                       (mkAllocRegister [mkAllocInfo 0 4096] 1)
                       [] (fun _ => 0) [4096] [] [AllocPitchOk 8192 512]
                       [] [])
              eq_refl) as (Ha & Hd & _).
  split; [exact Ha | exact Hd].
Defined.

(** ** The leak check after a surface has lived *)

Lemma SurfacePlane_dtor_keeps_buffers (track : bool) (p : SurfacePlane)
      (w : World) :
  exists w', SurfacePlane_dtor track p w = (Ok tt, w') /\
             BuffersRegister w' = BuffersRegister w.
Proof.
  unfold SurfacePlane_dtor, SurfacePlane_Deallocate, OwnMemory, bind, call,
    ret.
  destruct (ownMem p); destruct track; simpl; eexists; split; reflexivity.
Qed.

Lemma Surface_dtor_keeps_buffers (track : bool) (s : Surface) (w w' : World) :
  Surface_dtor track s w = (Ok tt, w') ->
  BuffersRegister w' = BuffersRegister w.
Proof.
  destruct s as [p | p | py pu pv | p | p]; simpl.
  1, 2, 4, 5:
    (destruct (SurfacePlane_dtor_keeps_buffers track p w) as (w1 & -> & E);
     intros Heq; inversion Heq; subst; exact E).
  unfold bind.
  destruct (SurfacePlane_dtor_keeps_buffers track pv w) as (w1 & -> & E1).
  destruct (SurfacePlane_dtor_keeps_buffers track pu w1) as (w2 & -> & E2).
  destruct (SurfacePlane_dtor_keeps_buffers track py w2) as (w3 & -> & E3).
  intros Heq. inversion Heq; subst. congruence.
Qed.

(** X20: the leak check around the life of a surface, with tracking on.
    Starting from two empty registers, after a surface of any of the five
    formats is made [CheckAllocationCounters] answers [false] and writes the
    surfaces header followed by one line per member plane; after the surface
    is destroyed it answers [true] and writes nothing. *)
Theorem leak_check_around_surface (format : Pixel_Format)
        (newWidth newHeight context : Z) (w : World)
        (Hknown : format <> UNDEFINED)
        (Hbuffers : instances (BuffersRegister w) = [])
        (Hsurfaces : instances (HWSurfaceRegister w) = [])
        (Hready : HW_ready 3 w) (Hwf : dev_wf w) :
  exists s w1 w2 out,
    Surface_Make true format newWidth newHeight context w
    = (Ok (Some s), w1) /\
    CheckAllocationCounters w1 = Some (false, LeakedSurfacesHeader :: out) /\
    length out = length (planes_of s) /\
    Surface_dtor true s w1 = (Ok tt, w2) /\
    CheckAllocationCounters w2 = Some (true, []).
Proof.
  destruct (Surface_scope true format newWidth
              newHeight context w Hknown Hready Hwf)
    as (s & w1 & w2 & Hmk & Hdt & _ & Hreg2 & _).
  destruct (Surface_Make_counts true format newWidth newHeight context w)
    as (r & w1' & Hmk' & Hr).
  rewrite Hmk in Hmk'. inversion Hmk'; subst r w1'. clear Hmk'.
  destruct Hr as (_ & _ & _ & Hcount & Hbuf1 & _).
  assert (Hbuf2 := Surface_dtor_keeps_buffers true s w1 w2 Hdt).
  assert (Hlen : length (instances (HWSurfaceRegister w1))
                 = length (planes_of s)).
  { unfold LiveCount, GetSize in Hcount. rewrite Hsurfaces in Hcount.
    simpl in Hcount. lia. }
  exists s, w1, w2,
    (map (fun n => LeakedNote (note_id n) (note_size n))
         (instances (HWSurfaceRegister w1))).
  split; [exact Hmk |].
  split; [| split; [| split; [exact Hdt |]]].
  - unfold CheckAllocationCounters. rewrite !report_leaks_all.
    unfold GetSize. rewrite Hbuf1, Hbuffers.
    destruct (instances (HWSurfaceRegister w1)) as [| n l] eqn:E.
    + exfalso. simpl in Hlen.
      destruct s; simpl in Hlen; discriminate Hlen.
    + reflexivity.
  - rewrite length_map. exact Hlen.
  - unfold CheckAllocationCounters. rewrite !report_leaks_all.
    unfold GetSize. rewrite Hbuf2, Hbuf1, Hbuffers, Hreg2, Hsurfaces.
    reflexivity.
Qed.

Lemma leak_check_around_surface_witness :
  let w := World_with [] [AllocPitchOk 4096 1024] in
  (Y <> UNDEFINED /\ instances (BuffersRegister w) = [] /\
   instances (HWSurfaceRegister w) = [] /\ HW_ready 3 w /\ dev_wf w) /\
  exists s w1 w2 out,
    Surface_Make true Y 640 480 7 w = (Ok (Some s), w1) /\
    CheckAllocationCounters w1 = Some (false, LeakedSurfacesHeader :: out) /\
    length out = length (planes_of s) /\
    Surface_dtor true s w1 = (Ok tt, w2) /\
    CheckAllocationCounters w2 = Some (true, []).
Proof.
  cbv zeta.
  assert (Hk : Y <> UNDEFINED) by discriminate.
  assert (Hb : instances (BuffersRegister
                            (World_with [] [AllocPitchOk 4096 1024])) = [])
    by reflexivity.
  assert (Hs : instances (HWSurfaceRegister
                            (World_with [] [AllocPitchOk 4096 1024])) = [])
    by reflexivity.
  assert (Hr : HW_ready 3 (World_with [] [AllocPitchOk 4096 1024])).
  { split; [split; simpl; constructor |]. unfold ID_room. simpl. lia. }
  assert (Hw : dev_wf (World_with [] [AllocPitchOk 4096 1024])).
  { split; simpl; [tauto |].
    constructor; [simpl; unfold nullptr; lia | constructor]. }
  split; [repeat (split; [assumption |]); assumption |].
  exact (leak_check_around_surface Y 640 480 7 _ Hk Hb Hs Hr Hw).
Defined.
